(** * chartlib.chart_spec: the chart compiler of covid19-vis

    A shallow embedding of [src/chartlib/chart_spec.py] (class [ChartSpec])
    and the properties its specification states about it.

    Conventions of the embedding.
    - A Python [str] is a Rocq [string] holding its UTF-8 bytes; iterating a
      [str] yields its code points, each again a (one code point) [string].
    - Python exceptions are values of [error]; a function that can raise
      returns a [result].
    - The configuration ([self], a [DotDict], i.e. a [dict]) is a
      [gmap string value]; the entry under the key ['transient'] is kept in a
      field of its own ([transient]).
    - A pandas data frame is a finite map from column names to columns.
    - Numbers of the configuration and of the data are integers; the
      decimal constants of the source (0.08, .4, 0.5) are carried as their
      text.
    - Altair charts are first-order records ([Chart]); the Altair calls the
      compiler makes ([mark_*], [encode], [transform_*], [add_selection])
      are the record updates they perform on the chart description. *)

From Stdlib Require Import ZArith QArith String Ascii List Lia.
From stdpp Require Import base option list gmap strings pretty sorting.

Set Warnings "-register-all".

Open Scope string_scope.
Open Scope Z_scope.

(** ** Exceptions *)

Inductive error :=
  | ValueError (msg : string)
  | KeyError (key : string)
  | IndexError
  | TypeError
  | AttributeError (name : string).

Inductive result (A : Type) :=
  | Ok (a : A)
  | Raise (e : error).
Arguments Ok {A} a.
Arguments Raise {A} e.

Global Instance result_ret : MRet result := fun A a => Ok a.
Global Instance result_bind : MBind result := fun A B f m =>
  match m with
  | Ok a => f a
  | Raise e => Raise e
  end.

Definition is_ok {A} (r : result A) : bool :=
  match r with Ok _ => true | Raise _ => false end.

Definition is_value_error {A} (r : result A) : bool :=
  match r with Raise (ValueError _) => true | _ => false end.

(** ** Python values *)

(** A cell of a data frame column: a missing value (NaN/None), an integer
    or a string. *)
Inductive cell :=
  | CNull
  | CInt (n : Z)
  | CStr (s : string).

Global Instance cell_eq_dec : EqDecision cell.
Proof. solve_decision. Defined.

(** A configuration value.  [VList] holds the domain pairs ([xdomain],
    [ydomain]); [VDict] holds a group-to-color mapping, in the insertion
    order of the Python [dict]. *)
Inductive value :=
  | VNone
  | VBool (b : bool)
  | VInt (n : Z)
  | VStr (s : string)
  | VList (l : list Z)
  | VDict (d : list (cell * string)).

Global Instance value_eq_dec : EqDecision value.
Proof. solve_decision. Defined.

Definition dq : string := String "034" EmptyString.

(** [bool(v)] *)
Definition truthy (v : value) : bool :=
  match v with
  | VNone => false
  | VBool b => b
  | VInt n => negb (n =? 0)
  | VStr s => negb (String.eqb s "")
  | VList l => match l with [] => false | _ => true end
  | VDict d => match d with [] => false | _ => true end
  end.

Definition is_none (v : value) : bool :=
  match v with VNone => true | _ => false end.

(** [isinstance(v, dict)] *)
Definition is_dict (v : value) : bool :=
  match v with VDict _ => true | _ => false end.

(** Dictionaries as association lists: [k in d], [d[k]], [d[k] = v],
    [d.values()]. *)
Section Dict.
Context {K V : Type} `{EqDecision K}.

Fixpoint dict_get (d : list (K * V)) (k : K) : option V :=
  match d with
  | [] => None
  | (k', v) :: d' => if decide (k' = k) then Some v else dict_get d' k
  end.

Definition dict_in (k : K) (d : list (K * V)) : bool :=
  match dict_get d k with Some _ => true | None => false end.

(** Assignment keeps the position of a key that is already there and
    appends a new key at the end. *)
Fixpoint dict_set (d : list (K * V)) (k : K) (v : V) : list (K * V) :=
  match d with
  | [] => [(k, v)]
  | (k', v') :: d' =>
      if decide (k' = k) then (k', v) :: d' else (k', v') :: dict_set d' k v
  end.

Definition dict_keys (d : list (K * V)) : list K := map fst d.
Definition dict_values (d : list (K * V)) : list V := map snd d.
End Dict.

Definition dict_eqb (d1 d2 : list (cell * string)) : bool :=
  forallb (fun kv => bool_decide (dict_get d2 (fst kv) = Some (snd kv))) d1
  && forallb (fun kv => bool_decide (dict_get d1 (fst kv) = Some (snd kv))) d2.

(** [a == b]; a [bool] is an [int] in Python. *)
Definition py_eq (a b : value) : bool :=
  match a, b with
  | VNone, VNone => true
  | VBool x, VBool y => Bool.eqb x y
  | VBool x, VInt n | VInt n, VBool x => n =? (if x then 1 else 0)
  | VInt x, VInt y => x =? y
  | VStr x, VStr y => String.eqb x y
  | VList x, VList y => bool_decide (x = y)
  | VDict x, VDict y => dict_eqb x y
  | _, _ => false
  end.

Definition py_ne (a b : value) : bool := negb (py_eq a b).

Definition repr_cell (c : cell) : string :=
  match c with
  | CNull => "nan"
  | CInt n => pretty n
  | CStr s => "'" ++ s ++ "'"
  end.

(** [str(v)], which is also what an f-string or [format] inserts.  The
    [repr] of the strings inside a dictionary is the one of strings
    without quotes or escapes. *)
Definition py_str (v : value) : string :=
  match v with
  | VNone => "None"
  | VBool true => "True"
  | VBool false => "False"
  | VInt n => pretty n
  | VStr s => s
  | VList l => "[" ++ String.concat ", " (map pretty l) ++ "]"
  | VDict d =>
      "{" ++ String.concat ", "
               (map (fun kv => repr_cell (fst kv) ++ ": '" ++ snd kv ++ "'") d)
          ++ "}"
  end.

Definition lower_ascii (a : ascii) : ascii :=
  let n := nat_of_ascii a in
  if ((65 <=? n) && (n <=? 90))%nat then ascii_of_nat (n + 32) else a.

(** [s.lower()], on the ASCII letters. *)
Fixpoint lower (s : string) : string :=
  match s with
  | EmptyString => EmptyString
  | String a s' => String (lower_ascii a) (lower s')
  end.

(** [v[1]] *)
Definition subscript1 (v : value) : result value :=
  match v with
  | VList l => match l !! 1%nat with Some n => Ok (VInt n) | None => Raise IndexError end
  | VDict d => match dict_get d (CInt 1) with
               | Some s => Ok (VStr s)
               | None => Raise (KeyError "1")
               end
  | VStr s => match String.get 1 s with
              | Some a => Ok (VStr (String a EmptyString))
              | None => Raise IndexError
              end
  | _ => Raise TypeError
  end.

(** ** Data frames *)

Abbreviation DataFrame := (gmap string (list cell)).

(** [name in df.columns] *)
Definition has_column (df : DataFrame) (name : string) : bool :=
  bool_decide (is_Some (df !! name)).

(** [df[col]], for a column label taken from the configuration. *)
Definition column (df : DataFrame) (col : value) : result (list cell) :=
  match col with
  | VStr s => match df !! s with
              | Some l => Ok l
              | None => Raise (KeyError s)
              end
  | _ => Raise (KeyError (py_str col))
  end.

(** [Series.unique()]: the distinct values in the order they are first met. *)
Fixpoint unique_aux {A} `{EqDecision A} (seen l : list A) : list A :=
  match l with
  | [] => []
  | x :: l' =>
      if bool_decide (x ∈ seen) then unique_aux seen l'
      else x :: unique_aux (x :: seen) l'
  end.

Definition unique {A} `{EqDecision A} (l : list A) : list A := unique_aux [] l.

(** [Series.dropna()] *)
Definition dropna (l : list cell) : list cell :=
  filter (fun c => c <> CNull) l.

(** ** ConfigModel *)

(** What attribute access on the [DotDict] does when the key is absent.
    [dot_dict.py] is not part of the sources at hand, so both common
    designs are covered: [dict.get] (the attribute is [None]) and raising
    ([AttributeError] or [KeyError]).  [missing_error] is the exception
    that reading [self.key[1]] ends in when [key] is absent. *)
Inductive missing_attr :=
  | ReturnsNone
  | RaisesAttributeError
  | RaisesKeyError.

Definition missing_error (on_missing : missing_attr) (key : string) : error :=
  match on_missing with
  | ReturnsNone => TypeError
  | RaisesAttributeError => AttributeError key
  | RaisesKeyError => KeyError key
  end.

Record ChartSpec := {
  base : gmap string value;
  transient : option (gmap string value)
}.

Definition with_transient (c : ChartSpec) (t : option (gmap string value)) : ChartSpec :=
  {| base := base c; transient := t |}.

(** [self.get(key, default)], for a key other than ['transient'] *)
Definition get (c : ChartSpec) (key : string) (default : value) : value :=
  match base c !! key with
  | Some v => v
  | None => default
  end.

(** [key in self] *)
Definition contains (c : ChartSpec) (key : string) : bool :=
  bool_decide (is_Some (base c !! key)).

(** Modelled from the spec: [DotDict] gives "attribute-style field access"
    to the map; [self.key] is the value stored under [key], and an absent
    key is handled as [on_missing] says. *)
Definition getattr (on_missing : missing_attr) (c : ChartSpec) (key : string) : result value :=
  match base c !! key with
  | Some v => Ok v
  | None =>
      match on_missing with
      | ReturnsNone => Ok VNone
      | _ => Raise (missing_error on_missing key)
      end
  end.

Module Const.
Definition click := "click".
Definition cursor := "cursor".
Definition legend := "legend".
Definition X := "x".
Definition Y := "y".
Definition normal_type := "normal".
Definition lockdown_type := "lockdown".
Definition DEFAULT_HEIGHT := 400.
Definition DEFAULT_WIDTH := 600.
Definition DEFAULT_POINT_SIZE := 45.
Definition DEFAULT_UNFOCUSED_OPACITY := "0.08".
Definition DEFAULT_AXES_TITLE_FONTSIZE := 16.
Definition DEFAULT_BACKGROUND_COLOR := "white".
Definition DEFAULT_MIN_TREND_LINE_DAYS := 5.
Definition DEFAULT_FONT := "Khula".
Definition MAX_LEGEND_MARKS := 33.
Definition MAX_EMOJI_LEGEND_MARKS := 7.
Definition EMPTY_SELECTION := "".
End Const.

Definition _prefer_transient (c : ChartSpec) (key : string) (default : value) : value :=
  match transient c with
  | None => get c key default
  | Some t =>
      match t !! key with
      | Some v => v
      | None => get c key default
      end
  end.

Definition _font (c : ChartSpec) : value := get c "font" (VStr Const.DEFAULT_FONT).
Definition _colorby (c : ChartSpec) : value := _prefer_transient c "colorby" VNone.
Definition _detailby (c : ChartSpec) : value := _prefer_transient c "detailby" VNone.
Definition _colormap (c : ChartSpec) : value := _prefer_transient c "colormap" VNone.
Definition _yscale (c : ChartSpec) : value := get c "yscale" (VStr "linear").
Definition _height (c : ChartSpec) : value := get c "height" (VInt Const.DEFAULT_HEIGHT).
Definition _width (c : ChartSpec) : value := get c "width" (VInt Const.DEFAULT_WIDTH).
Definition _manual_legend (c : ChartSpec) : value := get c "use_manual_legend" (VBool false).

(** ** Validation *)

Definition check_detail_is_color (on_missing : missing_attr) (c : ChartSpec)
    (msg : string) : result unit :=
  d ← getattr on_missing c "detailby";
  b ← getattr on_missing c "colorby";
  if py_ne d b then Raise (ValueError msg) else Ok tt.

Definition validate (on_missing : missing_attr) (c : ChartSpec) (df : DataFrame) : result unit :=
  if negb (contains c "lines") && negb (contains c "points") then
    Raise (ValueError "should have at least one of lines or points")
  else if negb (has_column df Const.X) then
    Raise (ValueError "dataframe should have an x column")
  else if negb (has_column df Const.Y) then
    Raise (ValueError "dataframe should have a y column")
  else if negb (truthy (get c "click_selection" (VBool false)))
          && negb (truthy (get c "legend_selection" (VBool false))) then
    Raise (ValueError "one of click or legend selection should be specified")
  else
    let colormap := get c "colormap" VNone in
    _ ← (if negb (is_none colormap) then
           _ ← check_detail_is_color on_missing c
                 "when colormap specified, detailby and colorby should be identical";
           if negb (is_dict colormap) then
             Raise (ValueError "expected dictionary for colormap")
           else Ok tt
         else Ok tt);
    if truthy (get c "legend_selection" (VBool false)) then
      check_detail_is_color on_missing c
        "when legend selection enabled, detailby and colorby should be identical"
    else Ok tt.

(** ** ExpressionBuilder: the focus predicates, as expression strings *)

Definition _ensure_parens (expr : string) : string := "(" ++ expr ++ ")".

Definition flag_text (c : ChartSpec) (key : string) : string :=
  lower (py_str (get c key (VBool false))).

Definition _click_is_active (c : ChartSpec) : string :=
  _ensure_parens (String.concat " && " [
    flag_text c "click_selection";
    "isValid(" ++ Const.click ++ "." ++ py_str (_detailby c) ++ ")";
    Const.click ++ "." ++ py_str (_detailby c) ++ " != " ++ dq ++ Const.EMPTY_SELECTION ++ dq
  ]).

Definition _old_legend_is_active (c : ChartSpec) : string :=
  let conditions := [
    flag_text c "legend_selection";
    "isDefined(" ++ Const.legend ++ "." ++ py_str (_detailby c) ++ ")";
    "(!isDefined(" ++ Const.click ++ ") || !isDefined(" ++ Const.click ++ "_"
      ++ py_str (_detailby c) ++ "))"
  ] in
  let conditions :=
    if is_none (get c "facetby" VNone) then
      app conditions [
        "isValid(" ++ Const.legend ++ "_tuple)";
        "!isDefined(" ++ Const.legend ++ "_tuple.unit)"
      ]
    else
      app conditions [
        "isValid(" ++ Const.legend ++ "_" ++ py_str (_detailby c) ++ "_legend)"
      ] in
  _ensure_parens (String.concat " && " conditions).

Definition _legend_is_active (c : ChartSpec) : string :=
  if negb (truthy (_manual_legend c)) then _old_legend_is_active c
  else _ensure_parens (String.concat " && " [
    "isValid(legend_hover)";
    "isValid(legend_hover.group_idx)";
    "legend_hover.group_idx > -1"
  ]).

Definition _click_focused (c : ChartSpec) : string :=
  _ensure_parens (String.concat " && " [
    _click_is_active c;
    "indexof(" ++ Const.click ++ "." ++ py_str (_detailby c) ++ ", datum."
      ++ py_str (_detailby c) ++ ") >= 0"
  ]).

Definition _old_legend_focused (c : ChartSpec) : string :=
  _ensure_parens (String.concat " && " [
    _legend_is_active c;
    "indexof(" ++ Const.legend ++ "." ++ py_str (_detailby c) ++ ", datum."
      ++ py_str (_detailby c) ++ ") >= 0"
  ]).

Definition _legend_hover_focused (c : ChartSpec) : string :=
  if negb (truthy (_manual_legend c)) then _old_legend_focused c
  else _ensure_parens (String.concat " && " [
    _legend_is_active c;
    "datum.group_idx == legend_hover.group_idx"
  ]).

Definition _in_focus (c : ChartSpec) : string :=
  _ensure_parens (_click_focused c ++ " || " ++ _legend_hover_focused c).

Definition _someone_has_focus (c : ChartSpec) : string :=
  _ensure_parens (_click_is_active c ++ " || " ++ _legend_is_active c).

Definition _in_focus_or_none_selected (c : ChartSpec) : string :=
  _ensure_parens (_in_focus c ++ " || !" ++ _someone_has_focus c).

Definition _click_focused_or_none_selected (c : ChartSpec) : string :=
  _ensure_parens (_click_focused c ++ " || !" ++ _someone_has_focus c).

Definition _legend_focused_or_none_selected (c : ChartSpec) : string :=
  _ensure_parens (_legend_hover_focused c ++ " || !" ++ _someone_has_focus c).

Definition _show_events : string := "events.values[0]".
Definition _hide_regional_icons : string := "hide_regional_icons.values[0]".

Definition _show_trends (c : ChartSpec) : string :=
  if truthy (_manual_legend c) then "trends.values[0]"
  else "!isValid(trends_tuple) || trends_tuple.values[0]".

(** *** The same predicates as syntax trees

    The strings above are read by the renderer as boolean expressions.
    [bexpr] is the shape the builders give them: literals, opaque atoms
    (calls and comparisons over the selection state and the datum),
    negation, a parenthesised conjunction and a parenthesised
    disjunction.  [show] prints a tree; [eval] is its truth value once
    the atoms have one. *)

Inductive bexpr :=
  | BLit (b : bool)
  | BAtom (s : string)
  | BNot (e : bexpr)
  | BAnd (es : list bexpr)
  | BOr (a b : bexpr).

Fixpoint show (e : bexpr) : string :=
  match e with
  | BLit true => "true"
  | BLit false => "false"
  | BAtom s => s
  | BNot e => "!" ++ show e
  | BAnd es => "(" ++ String.concat " && " (map show es) ++ ")"
  | BOr a b => "(" ++ show a ++ " || " ++ show b ++ ")"
  end.

Fixpoint eval (rho : string -> bool) (e : bexpr) : bool :=
  match e with
  | BLit b => b
  | BAtom s => rho s
  | BNot e => negb (eval rho e)
  | BAnd es => forallb (eval rho) es
  | BOr a b => eval rho a || eval rho b
  end.

Definition flag_e (c : ChartSpec) (key : string) : bexpr :=
  match get c key (VBool false) with
  | VBool b => BLit b
  | v => BAtom (lower (py_str v))
  end.

Definition click_is_active_e (c : ChartSpec) : bexpr :=
  BAnd [
    flag_e c "click_selection";
    BAtom ("isValid(" ++ Const.click ++ "." ++ py_str (_detailby c) ++ ")");
    BAtom (Const.click ++ "." ++ py_str (_detailby c) ++ " != " ++ dq
             ++ Const.EMPTY_SELECTION ++ dq)
  ].

Definition old_legend_is_active_e (c : ChartSpec) : bexpr :=
  BAnd (app [
    flag_e c "legend_selection";
    BAtom ("isDefined(" ++ Const.legend ++ "." ++ py_str (_detailby c) ++ ")");
    BOr (BNot (BAtom ("isDefined(" ++ Const.click ++ ")")))
        (BNot (BAtom ("isDefined(" ++ Const.click ++ "_" ++ py_str (_detailby c) ++ ")")))
  ]
  (if is_none (get c "facetby" VNone) then [
     BAtom ("isValid(" ++ Const.legend ++ "_tuple)");
     BNot (BAtom ("isDefined(" ++ Const.legend ++ "_tuple.unit)"))
   ] else [
     BAtom ("isValid(" ++ Const.legend ++ "_" ++ py_str (_detailby c) ++ "_legend)")
   ])).

Definition legend_is_active_e (c : ChartSpec) : bexpr :=
  if negb (truthy (_manual_legend c)) then old_legend_is_active_e c
  else BAnd [
    BAtom "isValid(legend_hover)";
    BAtom "isValid(legend_hover.group_idx)";
    BAtom "legend_hover.group_idx > -1"
  ].

Definition click_focused_e (c : ChartSpec) : bexpr :=
  BAnd [
    click_is_active_e c;
    BAtom ("indexof(" ++ Const.click ++ "." ++ py_str (_detailby c) ++ ", datum."
             ++ py_str (_detailby c) ++ ") >= 0")
  ].

Definition legend_hover_focused_e (c : ChartSpec) : bexpr :=
  if negb (truthy (_manual_legend c)) then
    BAnd [
      legend_is_active_e c;
      BAtom ("indexof(" ++ Const.legend ++ "." ++ py_str (_detailby c) ++ ", datum."
               ++ py_str (_detailby c) ++ ") >= 0")
    ]
  else
    BAnd [
      legend_is_active_e c;
      BAtom "datum.group_idx == legend_hover.group_idx"
    ].

Definition in_focus_e (c : ChartSpec) : bexpr :=
  BOr (click_focused_e c) (legend_hover_focused_e c).

Definition someone_has_focus_e (c : ChartSpec) : bexpr :=
  BOr (click_is_active_e c) (legend_is_active_e c).

Definition in_focus_or_none_selected_e (c : ChartSpec) : bexpr :=
  BOr (in_focus_e c) (BNot (someone_has_focus_e c)).

(** ** ColorAssigner *)

Definition palette_hex : string :=
  "4e79a7f28e2ce1575976b7b259a14fedc949af7aa1ff9da79c755fbab0ab"
  ++ "1f77b4ff7f0e2ca02cd627289467bd8c564be377c27f7f7fbcbd2217becf"
  ++ "a6cee31f78b4b2df8a33a02cfb9a99e31a1cfdbf6fff7f00cab2d66a3d9affff99b15928"
  ++ "7fc97fbeaed4fdc086ffff99386cb0f0027fbf5b17666666"
  ++ "1b9e77d95f027570b3e7298a66a61ee6ab02a6761d666666".

(** [range(0, stop, step)] *)
Definition range_step (stop step : nat) : list nat :=
  map (fun k => (k * step)%nat) (seq 0 (Nat.div (stop + step - 1) step)).

Definition COLOR_SCHEME : list string :=
  app
    (map (fun y => "#" ++ y)
       (filter (fun x => x <> "")
          (map (fun i => substring i 6 palette_hex) (range_step 1000 6))))
    ["red"; "blue"; "green"; "purple"; "orange"].

(** [dict(colormap)] *)
Definition py_dict (v : value) : result (list (cell * string)) :=
  match v with
  | VDict d => Ok d
  | VList [] | VStr "" => Ok []
  | VStr _ => Raise (ValueError "dictionary update sequence element #0 has length 1; 2 is required")
  | _ => Raise TypeError
  end.

(** The inner [while] loop: from the cursor [idx], whose remaining palette
    entries are [rest], skip the entries that are among the values of the
    mapping.  Running off the end of the palette is an [IndexError]. *)
Fixpoint skip_used (rest : list string) (idx : nat) (colormap : list (cell * string))
    : result nat :=
  match rest with
  | [] => Raise IndexError
  | color :: rest' =>
      if bool_decide (color ∈ dict_values colormap) then skip_used rest' (S idx) colormap
      else Ok idx
  end.

(** The [for] loop over the groups; [default_color] is [None] when no
    default color is configured (a color is carried as its text). *)
Fixpoint assign_colors (groups : list cell) (default_color : option string)
    (colormap : list (cell * string)) (color_scheme_idx : nat)
    : result (list (cell * string)) :=
  match groups with
  | [] => Ok colormap
  | group :: groups' =>
      if dict_in group colormap then
        assign_colors groups' default_color colormap color_scheme_idx
      else
        match default_color with
        | Some dc =>
            assign_colors groups' default_color (dict_set colormap group dc) color_scheme_idx
        | None =>
            i ← skip_used (drop color_scheme_idx COLOR_SCHEME) color_scheme_idx colormap;
            match COLOR_SCHEME !! i with
            | None => Raise IndexError
            | Some color =>
                assign_colors groups' default_color (dict_set colormap group color) (S i)
            end
        end
  end.

Definition default_color_of (c : ChartSpec) : option string :=
  match get c "default_color" VNone with
  | VNone => None
  | v => Some (py_str v)
  end.

(** [self[self.TRANSIENT][key] = v] *)
Definition set_transient (c : ChartSpec) (key : string) (v : value) : result ChartSpec :=
  match transient c with
  | None => Raise (KeyError "transient")
  | Some t => Ok (with_transient c (Some (<[key := v]> t)))
  end.

(** Returns the configuration as the call leaves it. *)
Definition _populate_transient_colormap (c : ChartSpec) (df : DataFrame) : result ChartSpec :=
  let colormap := get c "colormap" VNone in
  if is_none colormap then Ok c
  else
    colormap ← py_dict colormap;
    col ← column df (_colorby c);
    colormap ← assign_colors (unique col) (default_color_of c) colormap 0;
    set_transient c "colormap" (VDict colormap).

(** ** Chart descriptions

    What the compiler hands to Altair, as data. *)

(** A constant argument: an integer, a decimal literal of the source
    (such as [0.08]), a string, a list, or a value of the configuration. *)
Inductive const :=
  | KInt (n : Z)
  | KDec (lit : string)
  | KStr (s : string)
  | KBool (b : bool)
  | KList (l : list Z)
  | KVal (v : value).

(** A predicate: an expression string or a selection. *)
Inductive test :=
  | TExpr (e : string)
  | TSel (name : string).

(** One encoding channel: [alt.X]/[alt.Y]/[alt.Detail]/a shorthand string
    ([EField]), [alt.Color] ([EColor], with its scale domain and range and
    whether the legend is switched off), [alt.value] and [alt.condition]. *)
Inductive enc :=
  | EField (shorthand : string) (opts : list (string * const))
  | EColor (shorthand : string) (scale : option (list cell * list string)) (no_legend : bool)
  | EValue (k : const)
  | ECond (t : test) (if_true if_false : enc).

Inductive transform :=
  | Filter (t : test)
  | Calculate (field expr : string).

Inductive binding :=
  | BindLegend
  | BindSelect (options : list cell) (name : string)
  | BindCheckbox (name : string).

Inductive init :=
  | InitField (field : string) (v : value) (as_list : bool)
  | InitValues (b : bool).

Record selection := {
  sel_type : string;
  sel_name : string;
  sel_fields : list string;
  sel_on : option string;
  sel_empty : option string;
  sel_clear : option string;
  sel_nearest : bool;
  sel_bind : option binding;
  sel_init : option init
}.

Record Chart := {
  data : DataFrame;
  chart_height : option value;
  chart_width : option value;
  mark : option (string * list (string * const));
  encoding : list (string * enc);
  transforms : list transform;
  selections : list selection
}.

(** [alt.Chart(df, width=w, height=h)] *)
Definition new_chart (df : DataFrame) (h w : value) : Chart :=
  {| data := df; chart_height := Some h; chart_width := Some w; mark := None;
     encoding := []; transforms := []; selections := [] |}.

Definition set_mark (ty : string) (args : list (string * const)) (ch : Chart) : Chart :=
  {| data := data ch; chart_height := chart_height ch; chart_width := chart_width ch;
     mark := Some (ty, args); encoding := encoding ch; transforms := transforms ch;
     selections := selections ch |}.

(** [chart.encode] with keyword arguments: the channels given update the
    ones there. *)
Definition encode (kwargs : list (string * enc)) (ch : Chart) : Chart :=
  {| data := data ch; chart_height := chart_height ch; chart_width := chart_width ch;
     mark := mark ch;
     encoding := fold_left (fun e kv => dict_set e (fst kv) (snd kv)) kwargs (encoding ch);
     transforms := transforms ch; selections := selections ch |}.

Definition add_transform (t : transform) (ch : Chart) : Chart :=
  {| data := data ch; chart_height := chart_height ch; chart_width := chart_width ch;
     mark := mark ch; encoding := encoding ch; transforms := app (transforms ch) [t];
     selections := selections ch |}.

Definition transform_filter (e : string) : Chart -> Chart := add_transform (Filter (TExpr e)).
Definition transform_filter_sel (s : selection) : Chart -> Chart :=
  add_transform (Filter (TSel (sel_name s))).
Definition transform_calculate (field expr : string) : Chart -> Chart :=
  add_transform (Calculate field expr).

Definition add_selection (s : selection) (ch : Chart) : Chart :=
  {| data := data ch; chart_height := chart_height ch; chart_width := chart_width ch;
     mark := mark ch; encoding := encoding ch; transforms := transforms ch;
     selections := app (selections ch) [s] |}.

(** The layers under construction: the Python [dict] [layers], in insertion
    order. *)
Abbreviation Layers := (list (string * Chart)).

(** [layers[key]] *)
Definition layer_at (layers : Layers) (key : string) : result Chart :=
  match dict_get layers key with
  | Some ch => Ok ch
  | None => Raise (KeyError key)
  end.

(** A layer declares a color encoding when its encoding has the channel
    [color] (by field or by value). *)
Definition declares_color (ch : Chart) : bool := dict_in "color" (encoding ch).

(** ** Axes and shared channels *)

Definition opt_if (b : bool) (kv : string * const) : list (string * const) :=
  if b then [kv] else [].

Definition _get_x (c : ChartSpec) (shorthand : string) : enc :=
  EField shorthand
    (opt_if (contains c "xdomain") ("scale.domain", KVal (get c "xdomain" VNone))
     ++ opt_if (negb (is_none (get c "xtitle" VNone))) ("title", KVal (get c "xtitle" VNone))
     ++ opt_if (contains c "grid") ("axis.grid", KVal (get c "grid" VNone)))%list.

Definition _get_y (c : ChartSpec) (shorthand : string) : enc :=
  EField shorthand
    ([("scale.type", KVal (get c "yscale" (VStr "linear")))]
     ++ opt_if (contains c "ydomain") ("scale.domain", KVal (get c "ydomain" VNone))
     ++ opt_if (negb (is_none (get c "ytitle" VNone))) ("title", KVal (get c "ytitle" VNone))
     ++ opt_if (contains c "grid") ("axis.grid", KVal (get c "grid" VNone)))%list.

Definition _alt_detail (c : ChartSpec) : enc :=
  EField (py_str (_detailby c) ++ ":N") [].

(** [colormap.keys()] and [colormap.values()] exist on a dictionary only. *)
Definition _alt_color (c : ChartSpec) : result enc :=
  scale ← match _colormap c with
          | VNone => Ok None
          | VDict d => Ok (Some (dict_keys d, dict_values d))
          | _ => Raise (AttributeError "keys")
          end;
  Ok (EColor (py_str (_colorby c) ++ ":N") scale (truthy (_manual_legend c))).

Definition unfocused_opacity (c : ChartSpec) : const :=
  match base c !! "unfocused_opacity" with
  | Some v => KVal v
  | None => KDec Const.DEFAULT_UNFOCUSED_OPACITY
  end.

Definition is_log (c : ChartSpec) : bool := py_eq (_yscale c) (VStr "log").

Definition filter_if (b : bool) (e : string) (ch : Chart) : Chart :=
  if b then transform_filter e ch else ch.

(** ** Content layers *)

Definition _make_line_layer (c : ChartSpec) (base : Chart) : result Chart :=
  color ← _alt_color c;
  let opacity :=
    if negb (truthy (get c "lines" (VBool false))) then EValue (KInt 0)
    else ECond (TExpr (_in_focus_or_none_selected c)) (EValue (KInt 1))
           (EValue (unfocused_opacity c)) in
  let line_layer :=
    encode [("x", _get_x c "x:Q"); ("y", _get_y c "y:Q"); ("detail", _alt_detail c);
            ("color", color); ("opacity", opacity)]
      (set_mark "line" [("size", KInt 3)] base) in
  let line_layer := transform_filter "datum.y !== null" line_layer in
  let line_layer :=
    transform_filter ("datum.x_type == " ++ dq ++ Const.normal_type ++ dq) line_layer in
  Ok (filter_if (is_log c) "datum.y > 0" line_layer).

Definition _make_point_layer (c : ChartSpec) (base : Chart) (point_size : const)
    (is_fake : bool) : result Chart :=
  color ← _alt_color c;
  let opacity :=
    if negb (truthy (get c "points" (VBool false))) || is_fake then EValue (KInt 0)
    else ECond (TExpr (_in_focus_or_none_selected c)) (EValue (KDec ".4"))
           (EValue (unfocused_opacity c)) in
  let point_layer :=
    encode [("x", _get_x c "x:Q"); ("y", _get_y c "y:Q"); ("detail", _alt_detail c);
            ("color", color); ("opacity", opacity)]
      (set_mark "point" [("size", point_size); ("filled", KBool true)] base) in
  let point_layer := transform_filter "datum.y !== null" point_layer in
  let point_layer :=
    transform_filter ("datum.x_type == " ++ dq ++ Const.normal_type ++ dq) point_layer in
  let point_layer := filter_if (is_log c) "datum.y > 0" point_layer in
  Ok (filter_if (is_fake && negb (truthy (_manual_legend c)))
        (_in_focus_or_none_selected c) point_layer).

Definition _make_tooltip_text_layer (c : ChartSpec) (point_layer : Chart)
    (cursor : selection) : Chart :=
  transform_filter (_in_focus c)
    (transform_calculate "tooltip_text"
       ("datum." ++ py_str (_detailby c) ++ " + " ++ dq ++ ": " ++ dq ++ " + datum.y")
       (encode [("text", ECond (TSel (sel_name cursor)) (EField "tooltip_text:N" [])
                           (EValue (KStr " ")));
                ("opacity", EValue (KInt 1));
                ("color", EValue (KStr "black"))]
          (set_mark "text" [("align", KStr "left"); ("dx", KInt 5); ("dy", KInt 45);
                            ("font", KVal (_font c))] point_layer))).

(** ** Tooltip and intervention layers *)

Definition checkbox_selection (label name : string) (init_values : bool) : selection :=
  {| sel_type := "single"; sel_name := name; sel_fields := []; sel_on := None;
     sel_empty := None; sel_clear := None; sel_nearest := false;
     sel_bind := Some (BindCheckbox label); sel_init := Some (InitValues init_values) |}.

Definition _collect_lockdown_icon_layers (c : ChartSpec) (df : DataFrame)
    (layers : Layers) (base : Chart) : Layers :=
  let ycol := if has_column df "event_index" then "event_index_y" else "y" in
  let _make_base (size : Z) :=
    let ret :=
      encode [("x", _get_x c "x:Q"); ("y", _get_y c (ycol ++ ":Q"));
              ("opacity", EValue (KInt 1)); ("url", EField "image_url" [])]
        (set_mark "image" [("height", KInt size); ("width", KInt size)] base) in
    if has_column df "event_index" then
      transform_calculate ycol
        "exp(log(datum.y) + (2 * (datum.event_index % 2) - 1) * ceil(datum.event_index / 2) * .8)"
        ret
    else ret in
  let icons := _make_base 25 in
  if has_column df "Coverage" then
    let layers :=
      dict_set layers "statewide_lockdown_icons"
        (transform_filter ("datum.Coverage == " ++ dq ++ "Statewide" ++ dq) icons) in
    dict_set layers "regional_lockdown_icons"
      (transform_filter ("datum.Coverage != " ++ dq ++ "Statewide" ++ dq) (_make_base 20))
  else dict_set layers "lockdown_icons" icons.

Definition _make_lockdown_rules_layer (c : ChartSpec) (base : Chart) : result Chart :=
  let base := set_mark "rule" [("size", KInt 3); ("strokeDash", KList [7; 3])] base in
  color ← _alt_color c;
  Ok (encode [("x", _get_x c "x:Q"); ("detail", _alt_detail c); ("color", color)] base).

Definition _collect_lockdown_tooltip_layers (c : ChartSpec) (df : DataFrame)
    (layers : Layers) (base : Chart) (cursor : selection) : Layers :=
  let _make_base (tooltip : enc) :=
    let ret :=
      transform_calculate "lockdown_tooltip_text"
        ("datum.lockdown_type + " ++ dq ++ " " ++ dq ++ " + " ++ dq ++ "(" ++ dq
           ++ " + datum.lockdown_date + " ++ dq ++ ")" ++ dq)
        (encode [("x", _get_x c "x:Q"); ("y", _get_y c "y:Q"); ("text", tooltip);
                 ("color", EValue (KStr "black"))]
           (set_mark "text" [("align", KStr "left"); ("dx", KInt 15); ("dy", KInt 0);
                             ("font", KVal (_font c)); ("fontWeight", KInt 600)] base)) in
    filter_if (has_column df "event_index") "datum.event_index == 0" ret in
  let lockdown_tooltip_text := "lockdown_tooltip_text" in
  let empty_if_checkbox := "empty_if_checkbox" in
  let hover_layer :=
    _make_base (ECond (TSel (sel_name cursor)) (EField (empty_if_checkbox ++ ":N") [])
                  (EValue (KStr " "))) in
  let event_select := truthy (get c "event_select" (VBool false)) in
  let calculate :=
    if event_select then
      _show_events ++ " ? " ++ dq ++ " " ++ dq ++ " : datum." ++ lockdown_tooltip_text
    else "datum." ++ lockdown_tooltip_text in
  let hover_layer :=
    if event_select then
      add_selection (checkbox_selection "Show all intervention details " "events" false)
        hover_layer
    else hover_layer in
  let hover_layer :=
    if has_column df "Coverage" then
      add_selection
        (checkbox_selection "Hide regional intervention icons " "hide_regional_icons" false)
        hover_layer
    else hover_layer in
  let hover_layer := transform_calculate empty_if_checkbox calculate hover_layer in
  let layers := dict_set layers "hover_layer" hover_layer in
  if event_select then
    dict_set layers "event_checkbox_layer"
      (transform_filter _show_events (_make_base (EField (lockdown_tooltip_text ++ ":N") [])))
  else layers.

Definition _collect_tooltip_layers (c : ChartSpec) (df : DataFrame) (layers : Layers)
    (base : Chart) (cursor : selection) : result Layers :=
  if negb (truthy (get c "has_tooltips" (VBool false))) then Ok layers
  else
    layers ← (if truthy (get c "tooltip_points" (VBool false)) then
                points ← layer_at layers "points";
                Ok (dict_set layers "tooltip_points"
                      (transform_filter (_in_focus c)
                         (encode [("opacity", ECond (TSel (sel_name cursor))
                                                (EValue (KInt 1)) (EValue (KInt 0)))]
                            (set_mark "point" [("filled", KBool true)] points))))
              else Ok layers);
    layers ← (if truthy (get c "tooltip_text" (VBool false)) then
                points ← layer_at layers "points";
                Ok (dict_set layers "tooltip_text" (_make_tooltip_text_layer c points cursor))
              else Ok layers);
    let layers :=
      if truthy (get c "tooltip_rules" VNone) then
        dict_set layers "tooltip_rules"
          (transform_filter (_someone_has_focus c)
             (transform_filter_sel cursor
                (encode [("x", EField "x:Q" [])]
                   (set_mark "rule" [("color", KStr "gray")] base))))
      else layers in
    let lockdown_base :=
      transform_filter (_in_focus c)
        (transform_filter ("datum.x_type == " ++ dq ++ Const.lockdown_type ++ dq) base) in
    let lockdown_base :=
      filter_if (has_column df "Coverage")
        ("datum.Coverage == " ++ dq ++ "Statewide" ++ dq ++ " || !" ++ _hide_regional_icons)
        lockdown_base in
    let has_lockdown_rules := truthy (get c "lockdown_rules" (VBool false)) in
    let has_lockdown_icons := truthy (get c "lockdown_icons" (VBool false)) in
    layers ← (if has_lockdown_rules then
                rules ← _make_lockdown_rules_layer c lockdown_base;
                Ok (dict_set layers "lockdown_rules" rules)
              else Ok layers);
    let layers :=
      if has_lockdown_icons then _collect_lockdown_icon_layers c df layers lockdown_base
      else layers in
    if has_lockdown_rules || has_lockdown_icons
       || truthy (get c "lockdown_tooltips" (VBool false)) then
      Ok (_collect_lockdown_tooltip_layers c df layers lockdown_base cursor)
    else Ok layers.

(** ** ExtrapolationModel *)

Definition min_trend_line_days (c : ChartSpec) : value :=
  get c "min_trend_line_days" (VInt Const.DEFAULT_MIN_TREND_LINE_DAYS).

Definition model_y_expr : string :=
  "datum.lockdown_y * pow(datum.lockdown_slope, datum.x - datum.lockdown_x)".

(** The filters and the derived field every trend line gets, before the
    optional clip. *)
Definition model_transforms (c : ChartSpec) : list transform := [
  Filter (TExpr (_show_trends c));
  Filter (TExpr "datum.lockdown_x != null");
  Filter (TExpr "datum.y !== null");
  Filter (TExpr "datum.lockdown_y !== null");
  Filter (TExpr "datum.lockdown_slope !== null");
  Filter (TExpr "datum.x >= datum.lockdown_x");
  Filter (TExpr "datum.lockdown_x > datum.x_start");
  Filter (TExpr ("datum.xmax - datum.lockdown_x >= " ++ py_str (min_trend_line_days c)));
  Calculate "model_y" model_y_expr
].

Definition clip_configured (c : ChartSpec) : bool :=
  contains c "ydomain" && truthy (get c "extrap_clip_to_ydomain" (VBool false)).

Definition _add_model_transformation_fields (on_missing : missing_attr) (c : ChartSpec)
    (base_chart : Chart) : result Chart :=
  let ret := fold_left (fun ch t => add_transform t ch) (model_transforms c) base_chart in
  if clip_configured c then
    ydomain ← getattr on_missing c "ydomain";
    upper ← subscript1 ydomain;
    Ok (transform_filter ("datum.model_y <= " ++ py_str upper) ret)
  else Ok ret.

Definition _make_lockdown_extrapolation_layer (on_missing : missing_attr) (c : ChartSpec)
    (base : Chart) : result Chart :=
  color ← _alt_color c;
  ret ← _add_model_transformation_fields on_missing c
          (encode [("x", _get_x c "x:Q"); ("y", _get_y c "model_y:Q");
                   ("detail", _alt_detail c); ("color", color)]
             (set_mark "line" [("size", KInt 5); ("strokeDash", KList [1; 1])] base));
  Ok (transform_filter (_in_focus c) ret).

Definition _make_extrapolation_tooltip_layer (c : ChartSpec) (extrap : Chart)
    (cursor trend_select : selection) : Chart :=
  let on_hover := truthy (get c "only_show_extrapolation_tooltip_on_hover" (VBool false)) in
  let text :=
    if on_hover then
      ECond (TSel (sel_name cursor)) (EField "extrap_text:N" []) (EValue (KStr " "))
    else EField "extrap_text:N" [] in
  let x := if on_hover then "x:Q" else "max(x):Q" in
  let y := if on_hover then "model_y:Q" else "max(model_y):Q" in
  add_selection trend_select
    (transform_calculate "extrap_text" (dq ++ "Original trend" ++ dq)
       (transform_filter (_show_trends c)
          (encode [("x", _get_x c x); ("y", _get_y c y); ("text", text);
                   ("opacity", EValue (KInt 1)); ("color", EValue (KStr "black"))]
             (set_mark "text" [("align", KStr "center"); ("dx", KInt 0); ("dy", KInt (-5));
                               ("font", KVal (_font c))] extrap)))).

(** ** LegendLayoutEngine: the manual legend *)

Fixpoint insert_sorted {A} (leb : A -> A -> bool) (x : A) (l : list A) : list A :=
  match l with
  | [] => [x]
  | y :: l' => if leb x y then x :: l else y :: insert_sorted leb x l'
  end.

(** [sorted(l)] *)
Definition sort_by {A} (leb : A -> A -> bool) (l : list A) : list A :=
  foldr (insert_sorted leb) [] l.

Definition ints_of (l : list cell) : option (list Z) :=
  mapM (fun c => match c with CInt n => Some n | _ => None end) l.

Definition strs_of (l : list cell) : option (list string) :=
  mapM (fun c => match c with CStr s => Some s | _ => None end) l.

(** Sorting a column: integers among themselves, strings among themselves
    (by code point); Python cannot order an integer and a string. *)
Definition sort_cells (l : list cell) : result (list cell) :=
  match ints_of l, strs_of l with
  | Some ns, _ => Ok (map CInt (sort_by Z.leb ns))
  | None, Some ss => Ok (map CStr (sort_by String.leb ss))
  | None, None => Raise TypeError
  end.

(** The keys of [df.groupby(by)], as
    [df.groupby(by).first().reset_index().sort_values(by)] lists them: the
    distinct non-missing values of the column, ascending. *)
Definition group_keys (df : DataFrame) (by_ : value) : result (list cell) :=
  col ← column df by_;
  sort_cells (unique (dropna col)).

(** [GroupBy.first()]: per group, the first non-missing value of a column. *)
Fixpoint first_in_group (keys vals : list cell) (k : cell) : cell :=
  match keys, vals with
  | k' :: keys', v :: vals' =>
      if bool_decide (k' = k) && negb (bool_decide (v = CNull)) then v
      else first_in_group keys' vals' k
  | _, _ => CNull
  end.

(** [groups[name]] for the grouped frame. *)
Definition grouped_column (df : DataFrame) (by_ : value) (keys : list cell)
    (name : string) : result (list cell) :=
  if py_eq by_ (VStr name) then Ok keys
  else
    match df !! name with
    | None => Raise (KeyError name)
    | Some vals =>
        keycol ← column df by_;
        Ok (map (first_in_group keycol vals) keys)
    end.

Definition legend_axis : list (string * const) := [
  ("title", KStr "");
  ("axis.domain", KBool false); ("axis.ticks", KBool false); ("axis.orient", KStr "right");
  ("axis.grid", KBool false); ("axis.labels", KBool false)
].

Definition legend_hover : selection :=
  {| sel_type := "single"; sel_name := "legend_hover"; sel_fields := ["group_idx"];
     sel_on := Some "mouseover"; sel_empty := Some "none"; sel_clear := Some "mouseout";
     sel_nearest := true; sel_bind := None; sel_init := None |}.

(** [idx] and [row_type] of the manual legend, for [n] groups: one normal
    row per group, then the title row. *)
Definition manual_legend_idx (n : nat) : list Z :=
  app (map (fun i => Const.MAX_LEGEND_MARKS + 1 - Z.of_nat i) (seq 0 n))
      [Const.MAX_LEGEND_MARKS + 2].

Definition manual_legend_row_type (n : nat) : list string :=
  app (replicate n "normal") ["title"].

(** The side data set of the manual legend. *)
Definition manual_legend_frame (c : ChartSpec) (group_names group_idx : list cell) : DataFrame :=
  let n := length group_names in
  let idx := map CInt (manual_legend_idx n) in
  let row_type := map CStr (manual_legend_row_type n) in
  let group_names :=
    app group_names
        [CStr ("Select " ++ py_str (get c "readable_group_name" (VStr "line")))] in
  <["row_type" := row_type]>
    (<["x" := replicate (length idx) (CInt 0)]>
       (<[py_str (_colorby c) := group_names]>
          (<["group_idx" := app group_idx [CInt (-1)]]>
             (<["idx" := idx]> ∅)))).

Definition _make_manual_legend (on_missing : missing_attr) (c : ChartSpec) (df : DataFrame)
    (click_selection : selection) : result (list Chart) :=
  colorby ← getattr on_missing c "colorby";
  group_names ← group_keys df colorby;
  if (Z.of_nat (length group_names) >? Const.MAX_LEGEND_MARKS) then
    Raise (ValueError ("max " ++ pretty Const.MAX_LEGEND_MARKS ++ " supported for now ("
                         ++ pretty (length group_names) ++ " requested)"))
  else
    group_idx ← grouped_column df colorby group_names "group_idx";
    let leg_df := manual_legend_frame c group_names group_idx in
    let base := new_chart leg_df (_height c) (VInt 100) in
    color ← _alt_color c;
    let _make_base (extra : list (string * enc)) :=
      encode
        (app [("x", EField "x:Q" (app legend_axis [("scale.domain", KList [-5; 20])]));
              ("y", EField "idx:Q"
                      (app legend_axis [("scale.domain", KList [0; Const.MAX_LEGEND_MARKS])]));
              ("color", color);
              ("detail", _alt_detail c)] extra) base in
    let legend_points :=
      transform_filter ("datum.row_type == " ++ dq ++ "normal" ++ dq)
        (set_mark "point" [("shape", KStr "diamond"); ("filled", KBool true); ("size", KInt 160)]
           (_make_base [("opacity", ECond (TExpr (_click_focused_or_none_selected c))
                                      (EValue (KInt 1)) (EValue (KDec "0.4")))])) in
    Ok [
      legend_points;
      add_selection click_selection
        (transform_calculate "padded_text"
           (dq ++ "__" ++ dq ++ " + datum." ++ py_str (_colorby c) ++ " + " ++ dq ++ "__" ++ dq)
           (encode [("text", EField "padded_text:N" []); ("opacity", EValue (KInt 0))]
              (set_mark "text" [("align", KStr "left")] legend_points)));
      add_selection legend_hover (set_mark "point" [("size", KInt 0)] (_make_base []));
      encode [("text", EField (py_str (_colorby c) ++ ":N") []);
              ("color", EValue (KStr "black"));
              ("opacity", ECond (TExpr (_in_focus_or_none_selected c))
                            (EValue (KInt 1)) (EValue (KDec "0.4")))]
        (set_mark "text" [("align", KStr "left"); ("dx", KInt 10); ("font", KVal (_font c))]
           legend_points);
      transform_filter ("datum.row_type == " ++ dq ++ "title" ++ dq)
        (encode [("text", EField (py_str (_colorby c) ++ ":N") []);
                 ("color", EValue (KStr "black"))]
           (set_mark "text" [("align", KStr "left"); ("dx", KInt (-10)); ("dy", KInt (-5));
                             ("font", KVal (_font c)); ("fontSize", KInt 16)]
              (_make_base [])))
    ].

(** ** LegendLayoutEngine: the emoji legend *)

(** U+200D ZERO WIDTH JOINER and U+FE0F VARIATION SELECTOR-16, in UTF-8. *)
Definition zwj : string := String "226" (String "128" (String "141" EmptyString)).
Definition vs16 : string := String "239" (String "184" (String "143" EmptyString)).

Definition is_continuation_byte (a : ascii) : bool :=
  let n := nat_of_ascii a in ((128 <=? n) && (n <? 192))%nat.

Fixpoint chars_from (cur : string) (s : string) : list string :=
  match s with
  | EmptyString => [cur]
  | String a s' =>
      if is_continuation_byte a then chars_from (cur ++ String a EmptyString) s'
      else cur :: chars_from (String a EmptyString) s'
  end.

(** [[c for c in s]]: the code points of a string, each with its
    continuation bytes. *)
Definition chars (s : string) : list string :=
  match s with
  | EmptyString => []
  | String a s' => chars_from (String a EmptyString) s'
  end.

(** [c in (u'\u200d', u'\ufe0f')] *)
Definition is_sep (c : string) : bool := String.eqb c zwj || String.eqb c vs16.

(** The [for] loop of [_emoji_gen], from the state ([cur_emoji], [saw_sep]). *)
Fixpoint emoji_gen_loop (cur_emoji : string) (saw_sep : bool) (rest : list string)
    : list string :=
  match rest with
  | [] => [cur_emoji]
  | c :: rest' =>
      if negb saw_sep && negb (is_sep c) then
        cur_emoji :: emoji_gen_loop c (is_sep c) rest'
      else
        emoji_gen_loop (cur_emoji ++ c) (is_sep c) rest'
  end.

(** The tokens [_emoji_gen] yields; [emojis_flattened[0]] needs a first
    code point. *)
Definition _emoji_gen (emojis_flattened : list string) : result (list string) :=
  match emojis_flattened with
  | [] => Raise IndexError
  | c :: rest => Ok (emoji_gen_loop c false rest)
  end.

(** [emojis_flattened]: the code points of all the strings, in order. *)
Fixpoint flatten_emojis (emojis : list cell) : result (list string) :=
  match emojis with
  | [] => Ok []
  | CStr s :: emojis' => rest ← flatten_emojis emojis'; Ok (app (chars s) rest)
  | _ :: _ => Raise TypeError
  end.

Definition no_entry_sign : string := "🚫".

Definition family : string := "👨" ++ zwj ++ "👩" ++ zwj ++ "👧" ++ zwj ++ "👦".

(** The description table written into the [emoji_and_description]
    expression. *)
Definition emoji_descriptions : list (string * string) := [
  (family, "Gatherings banned");
  ("🏠", "Stay-at-home order");
  ("🍔", "Restaurant closures");
  ("🏬", "Business closures");
  ("⚠" ++ vs16, "Emergency declaration");
  ("🎓", "School closures");
  ("🛩", "Travel restrictions");
  ("💼", "Visitor/Border restrictions");
  ("🛃", "Forgot what this meant")
].

Definition emoji_and_description_expr : string :=
  "datum.emoji + " ++ dq ++ " " ++ dq ++ " + {"
    ++ String.concat ""
         (map (fun kv => dq ++ fst kv ++ dq ++ ": " ++ dq ++ snd kv ++ dq ++ ", ")
            emoji_descriptions)
    ++ "}[datum.emoji]".

(** The tokens of the legend:
    [sorted(set(_emoji_gen()) - {no_entry_sign})]. *)
Definition emoji_tokens (df : DataFrame) : result (list string) :=
  col ← column df (VStr "emoji");
  emojis_flattened ← flatten_emojis (unique (dropna col));
  tokens ← _emoji_gen emojis_flattened;
  Ok (sort_by String.leb (filter (fun t => t <> no_entry_sign) (unique tokens))).

(** [self.xdomain[1]//4 + 2] *)
Definition emoji_column_offset (on_missing : missing_attr) (c : ChartSpec) : result Z :=
  xdomain ← getattr on_missing c "xdomain";
  upper ← subscript1 xdomain;
  match upper with
  | VInt n => Ok (n / 4 + 2)
  | _ => Raise TypeError
  end.

Definition separator_y (num_emoji_rows : nat) : result string :=
  match num_emoji_rows with
  | 1%nat => Ok "2"
  | 2%nat => Ok "4"
  | 3%nat => Ok "7"
  | _ => Raise (KeyError (pretty num_emoji_rows))
  end.

Definition _collect_emoji_legend_layers (on_missing : missing_attr) (c : ChartSpec)
    (df : DataFrame) (layers : Layers) : result Layers :=
  emojis ← emoji_tokens df;
  if (Z.of_nat (length emojis) >? Const.MAX_EMOJI_LEGEND_MARKS) then
    Raise (ValueError ("max " ++ pretty Const.MAX_EMOJI_LEGEND_MARKS ++ " supported for now"))
  else
    let idx := map (fun i => CInt (Z.of_nat i)) (seq 0 (length emojis + 1)) in
    let row_type := app (replicate (length emojis) (CStr "normal")) [CStr "title"] in
    let emojis := app emojis ["Intervention type"] in
    let leg_df : DataFrame :=
      <["row_type" := row_type]>
        (<["zero" := replicate (length idx) (CInt 0)]>
           (<["emoji" := map CStr emojis]> (<["idx" := idx]> ∅))) in
    let base :=
      encode [("color", EValue (KStr "black"))] (new_chart leg_df (_height c) (_width c)) in
    let marks :=
      transform_filter ("datum.row_type == " ++ dq ++ "normal" ++ dq)
        (transform_calculate "emoji_and_description" emoji_and_description_expr
           (encode [("x", _get_x c "x:Q"); ("y", _get_y c "y:Q");
                    ("text", EField "emoji_and_description:N" [])]
              (set_mark "text" [("align", KStr "left"); ("font", KVal (_font c));
                                ("fontSize", KInt 12)] base))) in
    offset ← emoji_column_offset on_missing c;
    let marks :=
      transform_calculate "y" "1.5 * pow(1.7, floor(datum.idx / 3))"
        (transform_calculate "x" ("5 + (datum.idx % 3) * " ++ pretty offset) marks) in
    let layers := dict_set layers "marks" marks in
    let num_emoji_rows := Nat.div (length emojis + 2) 3 in
    sep_y ← separator_y num_emoji_rows;
    Ok (dict_set layers "emoji_legend_sep"
          (transform_calculate "y" sep_y
             (encode [("y", _get_y c "y:Q"); ("color", EValue (KStr "gray"))]
                (set_mark "rule" [("strokeWidth", KDec "0.5"); ("strokeDash", KList [1; 0])]
                   base)))).

(** ** LayerPipeline *)

Definition _get_old_legend_title (on_missing : missing_attr) (c : ChartSpec) : result value :=
  let readable_group_name := get c "readable_group_name" VNone in
  if negb (is_none readable_group_name) && truthy (get c "legend_selection" (VBool false)) then
    Ok (VStr ("Select_" ++ py_str readable_group_name))
  else if negb (is_none readable_group_name) then Ok readable_group_name
  else getattr on_missing c "colorby".

Definition _populate_transient_props (on_missing : missing_attr) (c : ChartSpec)
    (df : DataFrame) : result ChartSpec :=
  c ← _populate_transient_colormap c df;
  let readable_group_name := get c "readable_group_name" VNone in
  if negb (is_none readable_group_name) && truthy (get c "legend_selection" (VBool false)) then
    title ← _get_old_legend_title on_missing c;
    c ← set_transient c "colorby" title;
    title ← _get_old_legend_title on_missing c;
    set_transient c "detailby" title
  else Ok c.

Record Document := {
  doc_layers : list Chart;
  doc_facet : option string;
  doc_interactive : bool;
  doc_title : option value;
  doc_manual_legend : option (list Chart);
  doc_background : value;
  doc_axis_title_font_size : value;
  doc_title_font : value;
  doc_legend_symbol : option string;
  doc_theme_font : value
}.

Definition click_selection_of (c : ChartSpec) (df : DataFrame) : result selection :=
  let manual := truthy (_manual_legend c) in
  bind ← (if negb manual then
            if truthy (get c "click_selection" (VBool false)) then
              col ← column df (_detailby c);
              Ok (Some (BindSelect
                          (CStr Const.EMPTY_SELECTION :: unique col)
                          ("Select "
                             ++ py_str (get c "readable_group_name"
                                          (get c "detailby" (VStr "group")))
                             ++ ": ")))
            else Ok (Some (BindSelect [CStr Const.EMPTY_SELECTION] " "))
          else Ok None);
  let click_init := get c "click_selection_init" VNone in
  let init :=
    if negb (is_none click_init) then
      Some (InitField (py_str (_detailby c)) click_init manual)
    else None in
  Ok {| sel_type := if manual then "multi" else "single";
        sel_name := Const.click;
        sel_fields := [py_str (_detailby c)];
        sel_on := Some "click"; sel_empty := Some "all"; sel_clear := Some "dblclick";
        sel_nearest := false; sel_bind := bind; sel_init := init |}.

Definition legend_selection_of (c : ChartSpec) : selection :=
  {| sel_type := "multi"; sel_name := Const.legend; sel_fields := [py_str (_colorby c)];
     sel_on := Some "click"; sel_empty := Some "all"; sel_clear := Some "dblclick";
     sel_nearest := false; sel_bind := Some BindLegend; sel_init := None |}.

Definition cursor_of (c : ChartSpec) : selection :=
  {| sel_type := "single"; sel_name := Const.cursor; sel_fields := ["x"];
     sel_on := Some "mouseover"; sel_empty := Some "none";
     sel_clear := if truthy (_manual_legend c) then Some "mouseout" else None;
     sel_nearest := true; sel_bind := None; sel_init := None |}.

(** The invisible layer that produces the native legend. *)
Definition legend_layer (c : ChartSpec) (base : Chart) : result Chart :=
  color ← _alt_color c;
  Ok (add_selection (legend_selection_of c)
        (encode [("x", _get_x c "x:Q"); ("y", _get_y c "y:Q"); ("color", color)]
           (set_mark "point" [("size", KInt 0)] base))).

Definition trend_select : selection :=
  checkbox_selection "Show trend lines for selected " "trends" true.

(** The body of the [try] block, on the configuration whose transient
    overlay has just been set to an empty map. *)
Definition compile_body (on_missing : missing_attr) (c : ChartSpec) (df : DataFrame)
    : result Document :=
  c ← _populate_transient_props on_missing c df;
  let manual := truthy (_manual_legend c) in
  let base := new_chart df (_height c) (_width c) in
  let layers : Layers := [] in
  click_selection ← click_selection_of c df;
  let layers :=
    dict_set layers "fake_interactive"
      (transform_filter "false"
         (encode [("x", _get_x c "x:Q"); ("y", _get_y c "y:Q")] (set_mark "line" [] base))) in
  layers ← (if negb manual then
              legend ← legend_layer c base;
              Ok (dict_set layers "legend" legend)
            else Ok layers);
  let cursor := cursor_of c in
  let layers :=
    if negb manual then
      dict_set layers "selectors"
        (add_selection cursor
           (encode [("x", _get_x c "x:Q")] (set_mark "point" [("size", KInt 0)] base)))
    else layers in
  fake_points ← _make_point_layer c base (KInt 400) true;
  let layers := dict_set layers "fake_points" (add_selection click_selection fake_points) in
  layers ← (if manual then
              selectors ← _make_point_layer c base (KInt 0) true;
              Ok (dict_set layers "selectors" (add_selection cursor selectors))
            else Ok layers);
  lines ← _make_line_layer c base;
  let layers := dict_set layers "lines" lines in
  points ← _make_point_layer c base
             (KVal (get c "point_size" (VInt Const.DEFAULT_POINT_SIZE))) false;
  let layers := dict_set layers "points" points in
  layers ← _collect_tooltip_layers c df layers base cursor;
  layers ← (if truthy (get c "lockdown_extrapolation" (VBool false)) then
              model_lines ← _make_lockdown_extrapolation_layer on_missing c base;
              let layers := dict_set layers "model_lines" model_lines in
              Ok (dict_set layers "model_tooltip"
                    (_make_extrapolation_tooltip_layer c model_lines cursor trend_select))
            else Ok layers);
  layers ← (if truthy (get c "emoji_legend" (VBool false)) then
              _collect_emoji_legend_layers on_missing c df layers
            else Ok layers);
  manual_legend ← (if manual then
                      legend ← _make_manual_legend on_missing c df click_selection;
                      Ok (Some legend)
                    else Ok None);
  Ok {| doc_layers := dict_values layers;
        doc_facet :=
          (let facetby := get c "facetby" VNone in
           if negb (is_none facetby) then Some (py_str facetby ++ ":N") else None);
        doc_interactive := truthy (get c "interactive" (VBool false));
        doc_title :=
          (if truthy (get c "title" (VBool false)) then Some (get c "title" VNone) else None);
        doc_manual_legend := manual_legend;
        doc_background := get c "background" (VStr Const.DEFAULT_BACKGROUND_COLOR);
        doc_axis_title_font_size :=
          get c "axes_title_fontsize" (VInt Const.DEFAULT_AXES_TITLE_FONTSIZE);
        doc_title_font := _font c;
        doc_legend_symbol := if negb manual then Some "diamond" else None;
        doc_theme_font := _font c |}.

(** [compile(df)]: the document or the exception, and the configuration as
    the call leaves it.  A failed validation happens before the [try], so
    it leaves the configuration as it was; after that the [finally] clause
    deletes the transient overlay on every path. *)
Definition compile (on_missing : missing_attr) (c : ChartSpec) (df : DataFrame)
    : result Document * ChartSpec :=
  match validate on_missing c df with
  | Raise e => (Raise e, c)
  | Ok _ =>
      (compile_body on_missing (with_transient c (Some ∅)) df, with_transient c None)
  end.

(** ** Reading the trend-line expressions

    The filters and the derived field of the trend line are expression
    strings over the fields of a row.  [term] and [cond] are their syntax,
    [term_show] and [cond_show] print them, and [term_eval] and
    [cond_eval] read them over the rationals: a field of a row is
    missing ([DNull], which counts as 0 in arithmetic), a number, or not
    a number ([DNaN]); [pow] is read for integer exponents. *)

Inductive term :=
  | TmField (name : string)
  | TmNum (n : Z)
  | TmSub (a b : term)
  | TmMul (a b : term)
  | TmPow (a b : term).

Inductive cond :=
  | CdNotNullLoose (name : string)
  | CdNotNull (name : string)
  | CdGe (a b : term)
  | CdGt (a b : term)
  | CdLe (a b : term).



Inductive datum_value :=
  | DNull
  | DNum (q : Q)
  | DNaN.

Abbreviation row := (string -> datum_value).

Definition field (r : row) (name : string) : option Q :=
  match r name with
  | DNull => Some 0%Q
  | DNum q => Some q
  | DNaN => None
  end.

Definition pow_int (a b : Q) : option Q :=
  if (Qnum b mod Zpos (Qden b) =? 0) then Some (Qpower a (Qnum b / Zpos (Qden b)))
  else None.

Fixpoint term_eval (r : row) (t : term) : option Q :=
  match t with
  | TmField name => field r name
  | TmNum n => Some (inject_Z n)
  | TmSub a b => x ← term_eval r a; y ← term_eval r b; Some (x - y)%Q
  | TmMul a b => x ← term_eval r a; y ← term_eval r b; Some (x * y)%Q
  | TmPow a b => x ← term_eval r a; y ← term_eval r b; pow_int x y
  end.

Definition compare_with (test : Q -> Q -> bool) (x y : option Q) : bool :=
  match x, y with
  | Some x, Some y => test x y
  | _, _ => false
  end.

Definition not_null (v : datum_value) : bool :=
  match v with DNull => false | _ => true end.

Definition cond_eval (r : row) (c : cond) : bool :=
  match c with
  | CdNotNullLoose name | CdNotNull name => not_null (r name)
  | CdGe a b => compare_with (fun x y => Qle_bool y x) (term_eval r a) (term_eval r b)
  | CdGt a b => compare_with (fun x y => negb (Qle_bool x y)) (term_eval r a) (term_eval r b)
  | CdLe a b => compare_with Qle_bool (term_eval r a) (term_eval r b)
  end.

(** A transform of the chain: a filter on the selection state, a filter
    on the row, or a derived field. *)
Inductive step :=
  | SelFilter (e : bexpr)
  | RowFilter (c : cond)
  | Derive (name : string) (t : term).


Definition set_field (r : row) (name : string) (v : option Q) : row :=
  fun name' =>
    if String.eqb name' name then match v with Some q => DNum q | None => DNaN end
    else r name'.

(** The row after the transforms, or [None] when a filter drops it. *)
Fixpoint run (rho : string -> bool) (steps : list step) (r : row) : option row :=
  match steps with
  | [] => Some r
  | SelFilter e :: steps' => if eval rho e then run rho steps' r else None
  | RowFilter c :: steps' => if cond_eval r c then run rho steps' r else None
  | Derive name t :: steps' => run rho steps' (set_field r name (term_eval r t))
  end.

Definition model_y_term : term :=
  TmMul (TmField "lockdown_y")
        (TmPow (TmField "lockdown_slope") (TmSub (TmField "x") (TmField "lockdown_x"))).

(** The chain of the trend line as syntax, for a minimum number of days
    [min_days] and an optional upper bound [clip] of the y-domain. *)
Definition trend_steps (c : ChartSpec) (min_days : Z) (clip : option Z) : list step :=
  app [
    SelFilter (BAtom (_show_trends c));
    RowFilter (CdNotNullLoose "lockdown_x");
    RowFilter (CdNotNull "y");
    RowFilter (CdNotNull "lockdown_y");
    RowFilter (CdNotNull "lockdown_slope");
    RowFilter (CdGe (TmField "x") (TmField "lockdown_x"));
    RowFilter (CdGt (TmField "lockdown_x") (TmField "x_start"));
    RowFilter (CdGe (TmSub (TmField "xmax") (TmField "lockdown_x")) (TmNum min_days));
    Derive "model_y" model_y_term
  ] (app
    match clip with
    | Some upper => [RowFilter (CdLe (TmField "model_y") (TmNum upper))]
    | None => []
    end
    [SelFilter (in_focus_e c)]).


Definition row_of (fields : list (string * Q)) : row :=
  fun name => match dict_get fields name with Some q => DNum q | None => DNull end.

(** ** The segmentation rule in the words of the specification

    A joiner or selector extends the current token; any other code point
    starts a new token unless the code point before it was a joiner or
    selector.  [prev] is the code point before the one looked at. *)
Fixpoint segment_from (cur prev : string) (rest : list string) : list string :=
  match rest with
  | [] => [cur]
  | c :: rest' =>
      if is_sep c || is_sep prev then segment_from (cur ++ c) c rest'
      else cur :: segment_from c c rest'
  end.

Definition segment (code_points : list string) : list string :=
  match code_points with
  | [] => []
  | c :: rest => segment_from c c rest
  end.

(** ** Example data *)

(** A frame with [n] groups, numbered from 0, each with its index. *)
Definition numbered_groups (n : nat) : DataFrame :=
  let col := map (fun i => CInt (Z.of_nat i)) (seq 0 n) in
  list_to_map [("x", col); ("y", col); ("g", col); ("group_idx", col)].

Definition manual_example : ChartSpec :=
  {| base := list_to_map [("colorby", VStr "g"); ("detailby", VStr "g");
                          ("use_manual_legend", VBool true); ("lines", VBool true);
                          ("click_selection", VBool true)];
     transient := None |}.

(** A data set whose emoji column holds [n] distinct one-glyph strings
    (the code points from U+1F600 on need four bytes each: F0 9F 98 80+i). *)
Definition face (i : nat) : string :=
  String "240" (String "159" (String "152" (String (ascii_of_nat (128 + i)) EmptyString))).

Definition faces_frame (n : nat) : DataFrame :=
  let days := map (fun i => CInt (Z.of_nat i)) (seq 0 n) in
  list_to_map [("x", days); ("y", days); ("state", replicate n (CStr "CA"));
               ("emoji", map (fun i => CStr (face i)) (seq 0 n))].

Definition pizza_frame : DataFrame :=
  list_to_map [("x", [CInt 0; CInt 1]); ("y", [CInt 10; CInt 20]);
               ("state", [CStr "CA"; CStr "NY"]); ("emoji", [CStr "🍕"; CNull])].


Definition emoji_no_xdomain : ChartSpec :=
  {| base := list_to_map [("lines", VBool true); ("click_selection", VBool true);
                          ("colorby", VStr "state"); ("detailby", VStr "state");
                          ("emoji_legend", VBool true)];
     transient := None |}.


(** The names of the layers that are in place before the tooltip,
    trend-line and emoji layers are added. *)
Definition core_keys : list string :=
  ["fake_interactive"; "legend"; "selectors"; "fake_points"; "lines"; "points"].

Definition native_example : ChartSpec :=
  {| base := list_to_map [("lines", VBool true); ("points", VBool true);
                          ("click_selection", VBool true); ("legend_selection", VBool true);
                          ("colorby", VStr "state"); ("detailby", VStr "state");
                          ("has_tooltips", VBool true); ("tooltip_text", VBool true)];
     transient := None |}.

(** ** Inputs and predicates used in the statements *)

Definition overlay_font_example : ChartSpec :=
  {| base := ∅; transient := Some {["font" := VStr "Arial"]} |}.

Definition overlay_colorby_example : ChartSpec :=
  {| base := {["colorby" := VStr "state"]};
     transient := Some {["colorby" := VStr "Select_state"]} |}.

Definition focus_example : ChartSpec :=
  {| base := list_to_map [("click_selection", VBool true); ("legend_selection", VBool true);
                          ("detailby", VStr "state"); ("colorby", VStr "state")];
     transient := None |}.

(** A selection state with nothing selected: no selection signal is
    valid or defined, though the datum would match. *)
Definition nothing_selected (atom : string) : bool :=
  String.eqb atom "indexof(click.state, datum.state) >= 0"
  || String.eqb atom "indexof(legend.state, datum.state) >= 0".

(** The rejection rule in the words of the specification, with "lines or
    points requested" read as "the key is present", which is the test
    [validate] makes. *)
Definition detail_is_color (c : ChartSpec) : bool :=
  py_eq (get c "detailby" VNone) (get c "colorby" VNone).

Definition rejected (c : ChartSpec) (df : DataFrame) : bool :=
  (negb (contains c "lines") && negb (contains c "points"))
  || negb (has_column df "x")
  || negb (has_column df "y")
  || (negb (truthy (get c "click_selection" (VBool false)))
      && negb (truthy (get c "legend_selection" (VBool false))))
  || (negb (is_none (get c "colormap" VNone)) && negb (detail_is_color c))
  || (negb (is_none (get c "colormap" VNone)) && negb (is_dict (get c "colormap" VNone)))
  || (truthy (get c "legend_selection" (VBool false)) && negb (detail_is_color c)).

(** The attributes [validate] reads resolve: [DotDict] gives [None] for an
    absent key, or both keys are present. *)
Definition attrs_resolve (on_missing : missing_attr) (c : ChartSpec) : Prop :=
  on_missing = ReturnsNone \/ (contains c "detailby" = true /\ contains c "colorby" = true).

Definition nothing_requested : ChartSpec :=
  {| base := list_to_map [("lines", VBool false); ("points", VBool false);
                          ("click_selection", VBool true);
                          ("detailby", VStr "state"); ("colorby", VStr "state")];
     transient := None |}.

Definition small_frame : DataFrame :=
  list_to_map [("x", [CInt 0; CInt 1]); ("y", [CInt 10; CInt 20]);
               ("state", [CStr "CA"; CStr "NY"])].

Definition two_states : DataFrame :=
  list_to_map [("state", [CStr "CA"; CStr "NY"; CStr "CA"])].

Definition default_gray : ChartSpec :=
  {| base := list_to_map [("colorby", VStr "state"); ("colormap", VDict []);
                          ("default_color", VStr "gray")];
     transient := Some ∅ |}.

Definition partial_colormap : ChartSpec :=
  {| base := list_to_map [("colorby", VStr "state");
                          ("colormap", VDict [(CStr "NY", "#4e79a7")])];
     transient := Some ∅ |}.



Definition trend_example : ChartSpec :=
  {| base := list_to_map [("colorby", VStr "state"); ("detailby", VStr "state");
                          ("click_selection", VBool true);
                          ("ydomain", VList [1; 1000]);
                          ("extrap_clip_to_ydomain", VBool true)];
     transient := None |}.

Definition trend_toggle_on (atom : string) : bool := true.

(** ** Further syntax trees and inputs *)

Definition click_focused_or_none_selected_e (c : ChartSpec) : bexpr :=
  BOr (click_focused_e c) (BNot (someone_has_focus_e c)).

Definition legend_focused_or_none_selected_e (c : ChartSpec) : bexpr :=
  BOr (legend_hover_focused_e c) (BNot (someone_has_focus_e c)).

Definition click_disabled_example : ChartSpec :=
  {| base := list_to_map [("legend_selection", VBool true); ("detailby", VStr "state");
                          ("colorby", VStr "state")];
     transient := None |}.

Definition everything_valid (atom : string) : bool := true.

Definition alias_example : ChartSpec :=
  {| base := list_to_map [("lines", VBool true); ("legend_selection", VBool true);
                          ("readable_group_name", VStr "state");
                          ("colorby", VStr "State"); ("detailby", VStr "State")];
     transient := Some ∅ |}.

Definition missing_column_example : ChartSpec :=
  {| base := list_to_map [("lines", VBool true); ("click_selection", VBool true);
                          ("colorby", VStr "county"); ("detailby", VStr "county")];
     transient := None |}.

Definition plain_example : ChartSpec :=
  {| base := list_to_map [("lines", VBool true); ("points", VBool true);
                          ("click_selection", VBool true);
                          ("colorby", VStr "state"); ("detailby", VStr "state")];
     transient := None |}.

Definition manual_three_groups : DataFrame :=
  list_to_map [("x", [CInt 0; CInt 1; CInt 2]); ("y", [CInt 5; CInt 6; CInt 7]);
               ("g", [CStr "b"; CStr "a"; CStr "c"]);
               ("group_idx", [CInt 1; CInt 0; CInt 2])].

Definition many_groups_example : ChartSpec :=
  {| base := list_to_map [("colorby", VStr "g"); ("colormap", VDict [])];
     transient := Some ∅ |}.

Definition starts_with_glyph (code_points : list string) (token : string) : Prop :=
  exists c tail, c ∈ code_points /\ is_sep c = false /\ token = c ++ tail.


(** The names under which [_collect_tooltip_layers] stores layers. *)
Definition tooltip_names : list string :=
  ["tooltip_points"; "tooltip_text"; "tooltip_rules"; "lockdown_rules";
   "statewide_lockdown_icons"; "regional_lockdown_icons"; "lockdown_icons";
   "hover_layer"; "event_checkbox_layer"].


Definition tooltips_example : ChartSpec :=
  {| base := list_to_map [("colorby", VStr "state"); ("detailby", VStr "state");
                          ("has_tooltips", VBool true); ("tooltip_text", VBool true);
                          ("lockdown_icons", VBool true)];
     transient := None |}.

Definition some_layers : Layers :=
  [("points", new_chart ∅ (VInt 400) (VInt 600)); ("lines", new_chart ∅ (VInt 400) (VInt 600))].

(** * Properties *)

(** ** The exception monad *)

Lemma bind_Ok {A B} (m : result A) (f : A -> result B) (b : B) :
  m ≫= f = Ok b -> exists a, m = Ok a /\ f a = Ok b.
Proof. intros H. destruct m as [a|e]; [eauto | discriminate]. Qed.

Lemma bind_Raise {A B} (m : result A) (f : A -> result B) (e : error) :
  m ≫= f = Raise e -> m = Raise e \/ exists a, m = Ok a /\ f a = Raise e.
Proof.
  intros H. destruct m as [a|e']; [right; eauto | left].
  cbn in H. now inversion H.
Qed.

Ltac inv_bind H :=
  let a := fresh "a" in
  let Ha := fresh "H" a in
  apply bind_Ok in H as (a & Ha & H).

(** ** ConfigModel *)

Section Overlay.
Variables (c : ChartSpec) (t : gmap string value).
Hypothesis Ht : transient c = Some t.

Lemma prefer_transient_overlay key default v :
  t !! key = Some v -> _prefer_transient c key default = v.
Proof. intros Hk. unfold _prefer_transient. now rewrite Ht, Hk. Qed.

Lemma prefer_transient_base key default :
  t !! key = None -> _prefer_transient c key default = get c key default.
Proof. intros Hk. unfold _prefer_transient. now rewrite Ht, Hk. Qed.
End Overlay.

Lemma prefer_transient_no_overlay c key default :
  transient c = None -> _prefer_transient c key default = get c key default.
Proof. intros Ht. unfold _prefer_transient. now rewrite Ht. Qed.

(** The properties read with [self.get] do not look at the overlay. *)
Lemma get_with_transient c t key default :
  get (with_transient c t) key default = get c key default.
Proof. reflexivity. Qed.

(** C8, counterexample: with ['font'] present in the transient overlay
    (and absent from the base configuration) the font property is the
    default ['Khula'], not the overlay value. *)
Lemma font_ignores_overlay :
  transient overlay_font_example = Some {["font" := VStr "Arial"]}
  /\ ({["font" := VStr "Arial"]} : gmap string value) !! "font" = Some (VStr "Arial")
  /\ _font overlay_font_example = VStr "Khula"
  /\ _font overlay_font_example <> VStr "Arial".
Proof. repeat split; try reflexivity. discriminate. Qed.

(** C8, amended: the colors-by column, the details-by column and the
    group-to-color mapping are computed through the overlay-aware lookup:
    when their key is present in the transient overlay the property is the
    overlay value, and otherwise it is the base value (or [None]).  The
    font, the height, the width and the manual-legend flag are read from
    the base configuration alone, with the defaults ['Khula'], 400, 600
    and [False]: the overlay does not change them.  A compile call leaves
    the base configuration as it was. *)
Theorem derived_properties_lookup (c : ChartSpec) (t : gmap string value)
    (key : string) (v : value) :
  transient c = Some t ->
  t !! key = Some v ->
  (key = "colorby" -> _colorby c = v)
  /\ (key = "detailby" -> _detailby c = v)
  /\ (key = "colormap" -> _colormap c = v)
  /\ (forall k, k ∈ ["colorby"; "detailby"; "colormap"] -> t !! k = None ->
        _prefer_transient c k VNone = default VNone (base c !! k))
  /\ _font c = default (VStr "Khula") (base c !! "font")
  /\ _height c = default (VInt 400) (base c !! "height")
  /\ _width c = default (VInt 600) (base c !! "width")
  /\ _manual_legend c = default (VBool false) (base c !! "use_manual_legend")
  /\ (forall on_missing df, base (snd (compile on_missing c df)) = base c).
Proof.
  intros Ht Hk.
  repeat match goal with |- _ /\ _ => split end; try reflexivity.
  - intros ->. now apply (prefer_transient_overlay c t).
  - intros ->. now apply (prefer_transient_overlay c t).
  - intros ->. now apply (prefer_transient_overlay c t).
  - intros k _ Hnone. rewrite (prefer_transient_base c t Ht _ _ Hnone).
    unfold get. now destruct (base c !! k).
  - intros on_missing df. unfold compile. now destruct (validate on_missing c df).
Qed.

Lemma derived_properties_lookup_witness :
  _colorby overlay_colorby_example = VStr "Select_state".
Proof.
  apply (derived_properties_lookup overlay_colorby_example
           {["colorby" := VStr "Select_state"]} "colorby" (VStr "Select_state"));
    reflexivity.
Defined.

(** ** ExpressionBuilder *)

(** The syntax trees print to the strings the builders produce. *)

Lemma append_assoc (a b c : string) : (a ++ b) ++ c = a ++ (b ++ c).
Proof.
  induction a as [|x a IH]; [reflexivity|].
  change (String x ((a ++ b) ++ c) = String x (a ++ (b ++ c))). now f_equal.
Qed.

Lemma show_flag c key : show (flag_e c key) = flag_text c key.
Proof.
  unfold flag_e, flag_text. destruct (get c key (VBool false)) as [|[]| | | |]; reflexivity.
Qed.

Lemma show_click_is_active c : show (click_is_active_e c) = _click_is_active c.
Proof.
  unfold click_is_active_e, _click_is_active, _ensure_parens.
  cbn [show map]. now rewrite show_flag.
Qed.

Lemma show_old_legend_is_active c :
  show (old_legend_is_active_e c) = _old_legend_is_active c.
Proof.
  unfold old_legend_is_active_e, _old_legend_is_active, _ensure_parens.
  destruct (is_none (get c "facetby" VNone)); cbn [show map app];
    rewrite show_flag, !append_assoc; reflexivity.
Qed.

Lemma show_legend_is_active c : show (legend_is_active_e c) = _legend_is_active c.
Proof.
  unfold legend_is_active_e, _legend_is_active.
  destruct (negb (truthy (_manual_legend c))); [apply show_old_legend_is_active | reflexivity].
Qed.

Lemma show_click_focused c : show (click_focused_e c) = _click_focused c.
Proof.
  unfold click_focused_e, _click_focused, _ensure_parens.
  cbn [show map]. now rewrite show_click_is_active.
Qed.

Lemma show_legend_hover_focused c :
  show (legend_hover_focused_e c) = _legend_hover_focused c.
Proof.
  unfold legend_hover_focused_e, _legend_hover_focused, _old_legend_focused, _ensure_parens.
  destruct (negb (truthy (_manual_legend c))); cbn [show map];
    now rewrite show_legend_is_active.
Qed.

Lemma show_in_focus c : show (in_focus_e c) = _in_focus c.
Proof.
  unfold in_focus_e, _in_focus, _ensure_parens. cbn [show].
  rewrite show_click_focused, show_legend_hover_focused. now rewrite !append_assoc.
Qed.

Lemma show_someone_has_focus c : show (someone_has_focus_e c) = _someone_has_focus c.
Proof.
  unfold someone_has_focus_e, _someone_has_focus, _ensure_parens. cbn [show].
  rewrite show_click_is_active, show_legend_is_active. now rewrite !append_assoc.
Qed.

Lemma show_in_focus_or_none_selected c :
  show (in_focus_or_none_selected_e c) = _in_focus_or_none_selected c.
Proof.
  unfold in_focus_or_none_selected_e, _in_focus_or_none_selected, _ensure_parens.
  cbn [show]. rewrite show_in_focus, show_someone_has_focus.
  f_equal. now rewrite !append_assoc.
Qed.

(** A datum is not click-focused while the click selection is inactive,
    and likewise for the legend. *)
Lemma click_focused_needs_active rho c :
  eval rho (click_is_active_e c) = false -> eval rho (click_focused_e c) = false.
Proof. intros H. unfold click_focused_e. cbn [eval forallb]. now rewrite H. Qed.

Lemma legend_focused_needs_active rho c :
  eval rho (legend_is_active_e c) = false -> eval rho (legend_hover_focused_e c) = false.
Proof.
  intros H. unfold legend_hover_focused_e.
  destruct (negb (truthy (_manual_legend c))); cbn [eval forallb]; now rewrite H.
Qed.

(** C6: the expression is [(InFocus || !SomeoneHasFocus)], both as the
    string the builder returns and as the tree it denotes; and in every
    selection state [rho] in which neither the click selection nor the
    legend selection is active it is true, whatever the datum (the atoms
    that mention the datum may take any value). *)
Theorem in_focus_or_none_selected_true_when_nothing_selected
    (c : ChartSpec) (rho : string -> bool) :
  _in_focus_or_none_selected c = "(" ++ _in_focus c ++ " || !" ++ _someone_has_focus c ++ ")"
  /\ show (BOr (in_focus_e c) (BNot (someone_has_focus_e c))) = _in_focus_or_none_selected c
  /\ show (in_focus_e c) = _in_focus c
  /\ show (someone_has_focus_e c) = _someone_has_focus c
  /\ (eval rho (click_is_active_e c) = false ->
      eval rho (legend_is_active_e c) = false ->
      eval rho (BOr (in_focus_e c) (BNot (someone_has_focus_e c))) = true).
Proof.
  split; [|split; [|split; [|split]]].
  - unfold _in_focus_or_none_selected, _ensure_parens. now rewrite !append_assoc.
  - apply show_in_focus_or_none_selected.
  - apply show_in_focus.
  - apply show_someone_has_focus.
  - intros Hclick Hlegend. cbn [eval]. unfold someone_has_focus_e, in_focus_e. cbn [eval].
    rewrite Hclick, Hlegend.
    rewrite (click_focused_needs_active _ _ Hclick), (legend_focused_needs_active _ _ Hlegend).
    reflexivity.
Qed.

Lemma in_focus_or_none_selected_witness :
  eval nothing_selected (BOr (in_focus_e focus_example) (BNot (someone_has_focus_e focus_example)))
  = true.
Proof.
  apply (in_focus_or_none_selected_true_when_nothing_selected focus_example nothing_selected);
    reflexivity.
Defined.

(** ** Validation *)

Lemma getattr_get on_missing c key :
  on_missing = ReturnsNone \/ contains c key = true ->
  getattr on_missing c key = Ok (get c key VNone).
Proof.
  unfold getattr, get, contains. intros [-> | H].
  - now destruct (base c !! key).
  - destruct (base c !! key); [reflexivity|].
    rewrite bool_decide_eq_true in H. now destruct H.
Qed.

Lemma check_detail_is_color_spec on_missing c msg :
  attrs_resolve on_missing c ->
  check_detail_is_color on_missing c msg =
    if detail_is_color c then Ok tt else Raise (ValueError msg).
Proof.
  intros Hres. unfold check_detail_is_color, detail_is_color, py_ne.
  rewrite !getattr_get by (destruct Hres as [?|[? ?]]; auto). cbn.
  now destruct (py_eq _ _).
Qed.

(** [validate] raises a [ValueError] exactly in the cases listed. *)
Lemma validate_rejects_iff on_missing c df :
  attrs_resolve on_missing c ->
  is_value_error (validate on_missing c df) = rejected c df.
Proof.
  intros Hres. unfold validate, rejected.
  rewrite !(check_detail_is_color_spec _ _ _ Hres).
  destruct (contains c "lines"), (contains c "points"),
    (has_column df Const.X) eqn:Hx, (has_column df Const.Y) eqn:Hy;
    unfold Const.X, Const.Y in *; rewrite ?Hx, ?Hy; cbn; try reflexivity;
    destruct (truthy (get c "click_selection" (VBool false))),
      (truthy (get c "legend_selection" (VBool false))),
      (get c "colormap" VNone), (detail_is_color c); reflexivity.
Qed.

(** A rejected configuration builds no layer: [compile] ends with the
    exception of [validate]. *)
Lemma validate_before_layers on_missing c df e :
  validate on_missing c df = Raise e -> compile on_missing c df = (Raise e, c).
Proof. intros H. unfold compile. now rewrite H. Qed.

(** C3, at the failing input: the configuration sets both ['lines'] and
    ['points'] to [False], so neither is requested (the layer builders
    read them with [self.get(..., False)] and draw both with opacity 0),
    yet [validate] raises nothing, for the keys are present. *)
Theorem validate_accepts_unrequested_lines_and_points :
  truthy (get nothing_requested "lines" (VBool false)) = false
  /\ truthy (get nothing_requested "points" (VBool false)) = false
  /\ (forall on_missing, validate on_missing nothing_requested small_frame = Ok tt)
  /\ (exists doc lines points,
        fst (compile ReturnsNone nothing_requested small_frame) = Ok doc
        /\ doc_layers doc !! 4%nat = Some lines
        /\ doc_layers doc !! 5%nat = Some points
        /\ dict_get (encoding lines) "opacity" = Some (EValue (KInt 0))
        /\ dict_get (encoding points) "opacity" = Some (EValue (KInt 0))).
Proof.
  split; [reflexivity|]. split; [reflexivity|]. split.
  - intros []; reflexivity.
  - vm_compute. eexists _, _, _. repeat split.
Qed.

(** ** Dictionaries *)

Section DictFacts.
Context {K V : Type} `{EqDecision K}.
Implicit Types (d : list (K * V)) (k : K) (v : V).

Lemma dict_in_get d k : dict_in k d = true <-> is_Some (dict_get d k).
Proof.
  unfold dict_in. destruct (dict_get d k); split; intros H';
    try reflexivity; try discriminate; eauto. now destruct H'.
Qed.

Lemma dict_in_false d k : dict_in k d = false <-> dict_get d k = None.
Proof. unfold dict_in. destruct (dict_get d k); split; congruence. Qed.

Lemma dict_get_set_eq d k v : dict_get (dict_set d k v) k = Some v.
Proof.
  induction d as [|[k' v'] d IH]; cbn.
  - now rewrite decide_True.
  - destruct (decide (k' = k)) as [->|Hne]; cbn.
    + now rewrite decide_True.
    + now rewrite decide_False.
Qed.

Lemma dict_get_set_ne d k k' v : k <> k' -> dict_get (dict_set d k v) k' = dict_get d k'.
Proof.
  intros Hne. induction d as [|[k0 v0] d IH]; cbn.
  - now rewrite decide_False.
  - destruct (decide (k0 = k)) as [->|Hne0]; cbn.
    + now rewrite !decide_False.
    + destruct (decide (k0 = k')); [reflexivity | exact IH].
Qed.

Lemma dict_get_values d k v : dict_get d k = Some v -> v ∈ dict_values d.
Proof.
  induction d as [|[k0 v0] d IH]; cbn; [discriminate|].
  destruct (decide (k0 = k)).
  - intros [= ->]. apply list_elem_of_here.
  - intros H'. apply list_elem_of_further, IH, H'.
Qed.

(** Assigning to a key that is not there appends the entry. *)
Lemma dict_set_new d k v : dict_get d k = None -> dict_set d k v = app d [(k, v)].
Proof.
  induction d as [|[k0 v0] d IH]; cbn; [reflexivity|].
  destruct (decide (k0 = k)); [discriminate|]. intros H'. now rewrite IH.
Qed.

Lemma dict_values_set_new d k v :
  dict_get d k = None -> dict_values (dict_set d k v) = app (dict_values d) [v].
Proof. intros H'. rewrite dict_set_new by exact H'. unfold dict_values. now rewrite map_app. Qed.

(** Assigning to a key leaves the entries before it in place. *)
Lemma dict_set_after (p d : list (K * V)) k v :
  k ∉ dict_keys p -> dict_set (app p d) k v = app p (dict_set d k v).
Proof.
  induction p as [|[k0 v0] p IH]; cbn; [reflexivity|].
  intros Hk. rewrite not_elem_of_cons in Hk. destruct Hk as [Hne Hk].
  rewrite decide_False by congruence. now rewrite IH.
Qed.
End DictFacts.

(** ** ColorAssigner *)

(** The palette has 53 entries, 51 of them distinct. *)
Lemma COLOR_SCHEME_length : length COLOR_SCHEME = 53%nat.
Proof. reflexivity. Qed.

Lemma COLOR_SCHEME_distinct : length (remove_dups COLOR_SCHEME) = 51%nat.
Proof. vm_compute. reflexivity. Qed.

Lemma palette_covered_length (vals : list string) :
  (forall color, color ∈ COLOR_SCHEME -> color ∈ vals) -> (51 <= length vals)%nat.
Proof.
  intros Hall. rewrite <- COLOR_SCHEME_distinct.
  apply submseteq_length, NoDup_submseteq; [apply NoDup_remove_dups|].
  intros color Hcolor. apply Hall. now apply elem_of_remove_dups.
Qed.

Lemma unique_aux_elem {A} `{EqDecision A} (seen l : list A) (x : A) :
  x ∈ unique_aux seen l <-> x ∈ l /\ x ∉ seen.
Proof.
  revert seen. induction l as [|y l IH]; intros seen; cbn.
  - split; [intros H'; inversion H' | intros [H' _]; inversion H'].
  - case_bool_decide as Hy.
    + rewrite IH, elem_of_cons. split; [tauto|].
      intros [[->|Hx] Hn]; [contradiction | tauto].
    + rewrite !elem_of_cons, IH, not_elem_of_cons. split.
      * intros [->|[Hx [Hne Hn]]]; tauto.
      * intros [[->|Hx] Hn]; [tauto|].
        destruct (decide (x = y)) as [->|Hne]; tauto.
Qed.

Lemma unique_elem {A} `{EqDecision A} (l : list A) (x : A) : x ∈ unique l <-> x ∈ l.
Proof.
  unfold unique. rewrite unique_aux_elem. split; [tauto|].
  intros Hx. split; [exact Hx | apply not_elem_of_nil].
Qed.

(** What the inner loop returns: the first index from the cursor on whose
    color is not a value of the mapping; everything skipped is a value. *)
Lemma skip_used_Ok rest idx d i :
  skip_used rest idx d = Ok i ->
  exists j color,
    i = (idx + j)%nat /\ rest !! j = Some color /\ (color ∉ dict_values d)
    /\ forall j' color', (j' < j)%nat -> rest !! j' = Some color' -> color' ∈ dict_values d.
Proof.
  revert idx. induction rest as [|color rest IH]; intros idx; cbn; [discriminate|].
  case_bool_decide as Hin.
  - intros H'. apply IH in H' as (j & color0 & -> & Hj & Hfresh & Hskipped).
    exists (S j), color0. repeat split; [lia | exact Hj | exact Hfresh |].
    intros [|j'] color' Hlt Hj'; cbn in Hj'.
    + now injection Hj' as <-.
    + apply (Hskipped j'); [lia | exact Hj'].
  - intros [= <-]. exists 0%nat, color. repeat split; [lia | exact Hin |].
    intros j' color' Hlt. lia.
Qed.

Lemma skip_used_Raise rest idx d e :
  skip_used rest idx d = Raise e ->
  e = IndexError /\ forall color, color ∈ rest -> color ∈ dict_values d.
Proof.
  revert idx. induction rest as [|color rest IH]; intros idx; cbn.
  - intros [= <-]. split; [reflexivity|]. intros color H'. inversion H'.
  - case_bool_decide as Hin; [|discriminate].
    intros H'. apply IH in H' as [-> Hall]. split; [reflexivity|].
    intros color' Hc. apply elem_of_cons in Hc as [->|Hc]; auto.
Qed.

Section AssignColors.
Implicit Types (groups : list cell) (d m : list (cell * string)).
#[local] Opaque COLOR_SCHEME.

(** One step of the outer loop, for a group that needs a palette color. *)
Lemma assign_colors_cons_new group groups d idx m :
  dict_get d group = None ->
  assign_colors (group :: groups) None d idx = Ok m ->
  exists i color,
    (idx <= i)%nat /\ COLOR_SCHEME !! i = Some color /\ (color ∉ dict_values d)
    /\ (forall j c', (idx <= j < i)%nat -> COLOR_SCHEME !! j = Some c' -> c' ∈ dict_values d)
    /\ assign_colors groups None (dict_set d group color) (S i) = Ok m.
Proof.
  intros Hnew. cbn. rewrite (proj2 (dict_in_false d group) Hnew).
  intros H'. inv_bind H'.
  apply skip_used_Ok in Ha as (j & color & -> & Hj & Hfresh & Hskipped).
  rewrite lookup_drop in Hj. rewrite Hj in H'.
  exists (idx + j)%nat, color. repeat split; try assumption; [lia|].
  intros j' c' [Hle Hlt] Hj'. apply (Hskipped (j' - idx)%nat); [lia|].
  rewrite lookup_drop. now replace (idx + (j' - idx))%nat with j' by lia.
Qed.

(** The mapping only grows: what was there stays. *)
Lemma assign_colors_extends groups dc d idx m :
  assign_colors groups dc d idx = Ok m ->
  forall k v, dict_get d k = Some v -> dict_get m k = Some v.
Proof.
  revert d idx. induction groups as [|group groups IH]; intros d idx; cbn.
  - now intros [= <-].
  - destruct (dict_in group d) eqn:Hin; [apply IH|].
    apply dict_in_false in Hin.
    assert (forall color m', (forall k v, dict_get (dict_set d group color) k = Some v ->
              dict_get m' k = Some v) ->
            forall k v, dict_get d k = Some v -> dict_get m' k = Some v) as Hstep.
    { intros color m' Hm k v Hk. apply Hm. rewrite dict_get_set_ne; [exact Hk|].
      intros <-. congruence. }
    destruct dc as [dc|].
    + intros H'. eapply Hstep, IH, H'.
    + intros H'. inv_bind H'. destruct (COLOR_SCHEME !! a); [|discriminate].
      eapply Hstep, IH, H'.
Qed.

(** Every group ends up with a color. *)
Lemma assign_colors_total groups dc d idx m :
  assign_colors groups dc d idx = Ok m ->
  forall g, g ∈ groups -> dict_in g m = true.
Proof.
  revert d idx. induction groups as [|group groups IH]; intros d idx H' g Hg.
  - inversion Hg.
  - apply elem_of_cons in Hg as [->|Hg].
    + cbn in H'. destruct (dict_in group d) eqn:Hin.
      * apply dict_in_get in Hin as [v Hv]. apply dict_in_get.
        exists v. eapply assign_colors_extends; eauto.
      * apply dict_in_get. destruct dc as [dc|].
        -- exists dc. eapply assign_colors_extends; [exact H'|]. apply dict_get_set_eq.
        -- inv_bind H'. destruct (COLOR_SCHEME !! a) as [color|]; [|discriminate].
           exists color. eapply assign_colors_extends; [exact H'|]. apply dict_get_set_eq.
    + cbn in H'. destruct (dict_in group d); [eapply IH; eauto|].
      destruct dc as [dc|]; [eapply IH; eauto|].
      inv_bind H'. destruct (COLOR_SCHEME !! a); [|discriminate]. eapply IH; eauto.
Qed.

(** With a default color, every group outside the given mapping gets it,
    and the loop never fails. *)
Lemma assign_colors_default groups dc d idx :
  exists m, assign_colors groups (Some dc) d idx = Ok m
    /\ forall g, g ∈ groups -> dict_get d g = None -> dict_get m g = Some dc.
Proof.
  revert d. induction groups as [|group groups IH]; intros d; cbn.
  - exists d. split; [reflexivity|]. intros g Hg. inversion Hg.
  - destruct (dict_in group d) eqn:Hin.
    + destruct (IH d) as (m & Hm & Hdc). exists m. split; [exact Hm|].
      intros g Hg Hnone. apply elem_of_cons in Hg as [->|Hg]; [|auto].
      apply dict_in_get in Hin as [v Hv]. congruence.
    + destruct (IH (dict_set d group dc)) as (m & Hm & Hdc). exists m. split; [exact Hm|].
      intros g Hg Hnone. destruct (decide (g = group)) as [->|Hne].
      * eapply assign_colors_extends; [exact Hm|]. apply dict_get_set_eq.
      * apply elem_of_cons in Hg as [->|Hg]; [contradiction|].
        apply Hdc; [exact Hg|]. rewrite dict_get_set_ne; [exact Hnone | congruence].
Qed.

(** Without a default color, two different groups share a color only if
    the given mapping already gave both of them that color. *)
Lemma assign_colors_collision_free groups d idx m :
  assign_colors groups None d idx = Ok m ->
  forall g1 g2 v, g1 <> g2 -> dict_get m g1 = Some v -> dict_get m g2 = Some v ->
    dict_get d g1 = Some v /\ dict_get d g2 = Some v.
Proof.
  revert d idx. induction groups as [|group groups IH]; intros d idx H'.
  - cbn in H'. injection H' as <-. auto.
  - destruct (dict_get d group) as [v0|] eqn:Hget.
    + cbn in H'. rewrite (proj2 (dict_in_get d group)) in H' by eauto. eapply IH, H'.
    + apply assign_colors_cons_new in H' as (i & color & _ & _ & Hfresh & _ & H'); [|exact Hget].
      intros g1 g2 v Hne H1 H2.
      destruct (IH _ _ H' g1 g2 v Hne H1 H2) as [H1' H2'].
      destruct (decide (group = g1)) as [->|Hn1].
      * rewrite dict_get_set_eq in H1'. injection H1' as <-.
        rewrite dict_get_set_ne in H2' by exact Hne.
        apply dict_get_values in H2'. contradiction.
      * rewrite dict_get_set_ne in H1' by exact Hn1.
        destruct (decide (group = g2)) as [->|Hn2].
        -- rewrite dict_get_set_eq in H2'. injection H2' as <-.
           apply dict_get_values in H1'. contradiction.
        -- rewrite dict_get_set_ne in H2' by exact Hn2. auto.
Qed.

(** The palette is not exhausted while the mapping and the groups still
    to come number at most 51, the count of distinct palette colors.
    The cursor invariant: every palette entry before it is in use. *)
Lemma assign_colors_enough_palette groups d idx :
  (forall j color, (j < idx)%nat -> COLOR_SCHEME !! j = Some color -> color ∈ dict_values d) ->
  (length d + length groups <= 51)%nat ->
  exists m, assign_colors groups None d idx = Ok m.
Proof.
  revert d idx. induction groups as [|group groups IH]; intros d idx Hused Hlen; cbn.
  - eauto.
  - destruct (dict_in group d) eqn:Hin.
    + apply IH; [exact Hused | cbn in Hlen; lia].
    + apply dict_in_false in Hin.
      destruct (skip_used (drop idx COLOR_SCHEME) idx d) as [i|e] eqn:Hskip.
      * cbn. pose proof Hskip as Hskip'.
        apply skip_used_Ok in Hskip' as (j & color & -> & Hj & Hfresh & Hskipped).
        rewrite lookup_drop in Hj. rewrite Hj.
        apply IH.
        -- intros j' c' Hlt Hj'. rewrite dict_values_set_new by exact Hin.
           apply elem_of_app.
           destruct (decide (j' = (idx + j)%nat)) as [->|Hne].
           ++ right. rewrite Hj in Hj'. injection Hj' as <-. apply list_elem_of_here.
           ++ left. destruct (decide (j' < idx)%nat) as [Hlt'|Hge]; [eauto|].
              apply (Hskipped (j' - idx)%nat); [lia|].
              rewrite lookup_drop. now replace (idx + (j' - idx))%nat with j' by lia.
        -- rewrite dict_set_new by exact Hin. rewrite length_app. cbn in *. lia.
      * exfalso. apply skip_used_Raise in Hskip as [_ Hrest].
        assert (51 <= length (dict_values d))%nat as Hfull.
        { apply palette_covered_length. intros color Hcolor.
          apply list_elem_of_lookup in Hcolor as [j Hj].
          destruct (decide (j < idx)%nat) as [Hlt|Hge]; [eauto|].
          apply Hrest. apply list_elem_of_lookup. exists (j - idx)%nat.
          rewrite lookup_drop. now replace (idx + (j - idx))%nat with j by lia. }
        unfold dict_values in Hfull. rewrite length_map in Hfull. cbn in Hlen. lia.
Qed.
#[local] Transparent COLOR_SCHEME.
End AssignColors.

(** C1, counterexample: with a default color configured and an empty
    partial mapping, the two groups of the data both get the default
    color. *)
Lemma default_color_is_shared :
  _populate_transient_colormap default_gray two_states
  = Ok (with_transient default_gray
          (Some (<["colormap" := VDict [(CStr "CA", "gray"); (CStr "NY", "gray")]]> ∅)))
  /\ CStr "CA" <> CStr "NY".
Proof. split; [reflexivity | discriminate]. Qed.

(** Without a color mapping in the configuration nothing is written. *)
Lemma populate_without_colormap c df :
  get c "colormap" VNone = VNone -> _populate_transient_colormap c df = Ok c.
Proof. intros H'. unfold _populate_transient_colormap. now rewrite H'. Qed.

(** C1, amended: when a (partial) group-to-color mapping [P] is supplied,
    the compiler writes into the transient overlay a mapping [m] that is
    total over the group values present in the data and agrees with [P]
    on the keys of [P]; it does so whenever a default color is
    configured, or [P] and the distinct groups together number at most
    51 (the distinct colors of the palette).  With a default color every
    group outside [P] gets that color; without one, two different groups
    have the same color only where [P] itself gives both that color.
    The mapping written depends on [P], the default color and the
    grouping column alone.  When no mapping is supplied the overlay is
    left as it is. *)
Theorem populate_transient_colormap_spec (c : ChartSpec) (df : DataFrame)
    (t : gmap string value) (P : list (cell * string)) (col : list cell) :
  transient c = Some t ->
  get c "colormap" VNone = VDict P ->
  column df (_colorby c) = Ok col ->
  (default_color_of c = None -> length P + length (unique col) <= 51)%nat ->
  exists m,
    _populate_transient_colormap c df
      = Ok (with_transient c (Some (<["colormap" := VDict m]> t)))
    /\ (forall g, g ∈ col -> dict_in g m = true)
    /\ (forall k v, dict_get P k = Some v -> dict_get m k = Some v)
    /\ (forall dc g, default_color_of c = Some dc -> g ∈ col -> dict_get P g = None ->
          dict_get m g = Some dc)
    /\ (default_color_of c = None ->
        forall g1 g2 v, g1 <> g2 -> dict_get m g1 = Some v -> dict_get m g2 = Some v ->
          dict_get P g1 = Some v /\ dict_get P g2 = Some v)
    /\ (forall c' df' t',
          transient c' = Some t' -> get c' "colormap" VNone = VDict P ->
          default_color_of c' = default_color_of c -> column df' (_colorby c') = Ok col ->
          _populate_transient_colormap c' df'
            = Ok (with_transient c' (Some (<["colormap" := VDict m]> t'))))
    /\ (forall c0 df0, get c0 "colormap" VNone = VNone ->
          _populate_transient_colormap c0 df0 = Ok c0).
Proof.
  intros Ht HP Hcol Hroom.
  assert (exists m, assign_colors (unique col) (default_color_of c) P 0 = Ok m) as [m Hm].
  { destruct (default_color_of c) as [dc|].
    - destruct (assign_colors_default (unique col) dc P 0) as (m & Hm & _). eauto.
    - apply assign_colors_enough_palette; [intros j color Hlt; lia | auto]. }
  assert (forall c' df' t',
            transient c' = Some t' -> get c' "colormap" VNone = VDict P ->
            default_color_of c' = default_color_of c -> column df' (_colorby c') = Ok col ->
            _populate_transient_colormap c' df'
              = Ok (with_transient c' (Some (<["colormap" := VDict m]> t')))) as Hrun.
  { intros c' df' t' Ht' HP' Hdc' Hcol'. unfold _populate_transient_colormap.
    rewrite HP', Hcol', Hdc'. cbn. rewrite Hm. cbn. unfold set_transient. now rewrite Ht'. }
  exists m. split; [now apply Hrun|].
  split; [intros g Hg; eapply assign_colors_total; [exact Hm | now apply unique_elem]|].
  split; [eapply assign_colors_extends; exact Hm|].
  split.
  { intros dc g Hdc Hg Hnone. rewrite Hdc in Hm.
    destruct (assign_colors_default (unique col) dc P 0) as (m' & Hm' & Hall).
    rewrite Hm in Hm'. injection Hm' as <-. apply Hall; [now apply unique_elem | exact Hnone]. }
  split.
  { intros Hdc. rewrite Hdc in Hm. eapply assign_colors_collision_free; exact Hm. }
  split; [exact Hrun | exact populate_without_colormap].
Qed.

Lemma populate_transient_colormap_witness :
  exists m,
    _populate_transient_colormap partial_colormap two_states
      = Ok (with_transient partial_colormap (Some (<["colormap" := VDict m]> ∅)))
    /\ dict_get m (CStr "NY") = Some "#4e79a7"
    /\ dict_in (CStr "CA") m = true.
Proof.
  destruct (populate_transient_colormap_spec partial_colormap two_states ∅
              [(CStr "NY", "#4e79a7")] [CStr "CA"; CStr "NY"; CStr "CA"])
    as (m & Hrun & Htotal & Hagree & _); try reflexivity.
  - intros _. vm_compute. lia.
  - exists m. split; [exact Hrun|]. split.
    + apply Hagree. reflexivity.
    + apply Htotal. apply list_elem_of_here.
Defined.

Example populate_partial_colormap :
  _populate_transient_colormap partial_colormap two_states
  = Ok (with_transient partial_colormap
          (Some (<["colormap" := VDict [(CStr "NY", "#4e79a7"); (CStr "CA", "#f28e2c")]]> ∅))).
Proof. reflexivity. Qed.

(** ** ExtrapolationModel *)


(** The transforms of the trend line, in the order they are applied. *)
Lemma extrapolation_layer_transforms on_missing c base ch :
  _make_lockdown_extrapolation_layer on_missing c base = Ok ch ->
  exists clip,
    transforms ch =
      app (transforms base)
        (app [Filter (TExpr (_show_trends c));
              Filter (TExpr "datum.lockdown_x != null");
              Filter (TExpr "datum.y !== null");
              Filter (TExpr "datum.lockdown_y !== null");
              Filter (TExpr "datum.lockdown_slope !== null");
              Filter (TExpr "datum.x >= datum.lockdown_x");
              Filter (TExpr "datum.lockdown_x > datum.x_start");
              Filter (TExpr ("datum.xmax - datum.lockdown_x >= "
                               ++ py_str (get c "min_trend_line_days" (VInt 5))));
              Calculate "model_y"
                "datum.lockdown_y * pow(datum.lockdown_slope, datum.x - datum.lockdown_x)"]
           (app clip [Filter (TExpr (_in_focus c))]))
    /\ (clip_configured c = false -> clip = [])
    /\ (clip_configured c = true ->
        exists ydomain upper,
          getattr on_missing c "ydomain" = Ok ydomain /\ subscript1 ydomain = Ok upper
          /\ clip = [Filter (TExpr ("datum.model_y <= " ++ py_str upper))]).
Proof.
  unfold _make_lockdown_extrapolation_layer, _add_model_transformation_fields.
  intros H'. inv_bind H'. inv_bind H'. injection H' as <-.
  destruct (clip_configured c).
  - inv_bind Ha0. inv_bind Ha0. injection Ha0 as <-.
    eexists. split; [|split; [discriminate | intros _; eauto]].
    cbn [transforms transform_filter add_transform encode set_mark].
    rewrite <- ?app_assoc. reflexivity.
  - injection Ha0 as <-. exists []. split; [|split; [reflexivity | discriminate]].
    cbn [transforms transform_filter add_transform encode set_mark].
    rewrite <- ?app_assoc. reflexivity.
Qed.


(** What the comparisons of the chain say about the fields. *)









(** A row whose horizon [xmax - lockdown_x] is below the default minimum
    of 5 days is dropped. *)
Example short_horizon_is_excluded :
  run trend_toggle_on (trend_steps trend_example 5 (Some 1000))
    (row_of [("lockdown_x", 10%Q); ("lockdown_y", 100%Q); ("lockdown_slope", (11 # 10)%Q);
             ("x", 12%Q); ("y", 150%Q); ("x_start", 0%Q); ("xmax", 14%Q)])
  = None.
Proof. reflexivity. Qed.

(** ** Emoji segmentation *)

(** From the second code point on, the loop of [_emoji_gen] is the rule of
    the specification: [saw_sep] is "the code point before was a joiner
    or selector". *)
Lemma emoji_gen_loop_segment cur prev rest :
  emoji_gen_loop cur (is_sep prev) rest = segment_from cur prev rest.
Proof.
  revert cur prev. induction rest as [|c rest IH]; intros cur prev; cbn; [reflexivity|].
  destruct (is_sep prev), (is_sep c) eqn:Hc; cbn; rewrite <- IH, ?Hc; reflexivity.
Qed.

(** X17: on a sequence that does not begin with a joiner or selector the
    generator follows the rule throughout: a code point starts a new token
    unless it, or the code point before it, is a joiner or selector. *)
Lemma emoji_gen_segment c rest :
  is_sep c = false -> _emoji_gen (c :: rest) = Ok (segment (c :: rest)).
Proof.
  intros Hc. cbn. now rewrite <- emoji_gen_loop_segment, Hc.
Qed.

(** The example of the specification: house, graduation cap and the
    family joined by zero-width joiners are three tokens, the family one
    token of seven code points. *)
Example emoji_gen_family :
  _emoji_gen (chars ("🏠🎓" ++ family)) = Ok ["🏠"; "🎓"; family]
  /\ length (chars family) = 7%nat.
Proof. split; reflexivity. Qed.

(** C5, at the failing input: the sequence is a zero-width joiner followed
    by a house.  The code point before the house is a joiner, so by the
    rule the house belongs to the current token and there is one token;
    the generator starts with [saw_sep = False] whatever the first code
    point is, and yields two. *)
Theorem emoji_gen_leading_joiner :
  chars (zwj ++ "🏠") = [zwj; "🏠"]
  /\ is_sep zwj = true
  /\ _emoji_gen (chars (zwj ++ "🏠")) = Ok [zwj; "🏠"]
  /\ segment (chars (zwj ++ "🏠")) = [zwj ++ "🏠"].
Proof. repeat split; reflexivity. Qed.

(** ** Legend capacity *)

Lemma manual_legend_idx_lookup (n i : nat) :
  (i < n)%nat -> manual_legend_idx n !! i = Some (34 - Z.of_nat i).
Proof.
  intros Hi. unfold manual_legend_idx.
  rewrite lookup_app_l by (rewrite length_map, length_seq; exact Hi).
  rewrite list_lookup_fmap, lookup_seq_lt by exact Hi. reflexivity.
Qed.

Lemma data_encode kwargs ch : data (encode kwargs ch) = data ch.
Proof. reflexivity. Qed.



Example manual_legend_34_groups :
  _make_manual_legend ReturnsNone manual_example (numbered_groups 34) (cursor_of manual_example)
  = Raise (ValueError "max 33 supported for now (34 requested)").
Proof. vm_compute. reflexivity. Qed.

Example manual_legend_33_groups :
  is_ok (_make_manual_legend ReturnsNone manual_example (numbered_groups 33)
           (cursor_of manual_example)) = true.
Proof. vm_compute. reflexivity. Qed.

Example emoji_legend_8_tokens :
  _collect_emoji_legend_layers ReturnsNone manual_example (faces_frame 8) []
  = Raise (ValueError "max 7 supported for now").
Proof. vm_compute. reflexivity. Qed.

(** ** The emoji legend *)



Lemma emoji_column_offset_missing on_missing c :
  base c !! "xdomain" = None ->
  emoji_column_offset on_missing c = Raise (missing_error on_missing "xdomain").
Proof.
  intros Hx. unfold emoji_column_offset, getattr. rewrite Hx. now destruct on_missing.
Qed.

(** Without an x-domain the emoji legend is never built. *)
Lemma collect_emoji_needs_xdomain on_missing c df layers :
  base c !! "xdomain" = None ->
  is_ok (_collect_emoji_legend_layers on_missing c df layers) = false.
Proof.
  intros Hx. unfold _collect_emoji_legend_layers.
  destruct (emoji_tokens df) as [tokens|]; [|reflexivity]. cbn [mbind result_bind].
  destruct (Z.of_nat (length tokens) >? Const.MAX_EMOJI_LEGEND_MARKS); [reflexivity|].
  now rewrite emoji_column_offset_missing.
Qed.

Lemma collect_emoji_missing_xdomain on_missing c df layers tokens :
  base c !! "xdomain" = None ->
  emoji_tokens df = Ok tokens ->
  (length tokens <= 7)%nat ->
  _collect_emoji_legend_layers on_missing c df layers
  = Raise (missing_error on_missing "xdomain").
Proof.
  intros Hx Htok Hlen. unfold _collect_emoji_legend_layers.
  rewrite Htok. cbn [mbind result_bind].
  replace (Z.of_nat (length tokens) >? Const.MAX_EMOJI_LEGEND_MARKS) with false.
  2:{ symmetry. rewrite Z.gtb_ltb. apply Z.ltb_ge.
      unfold Const.MAX_EMOJI_LEGEND_MARKS. lia. }
  now rewrite emoji_column_offset_missing.
Qed.




(** ** LayerPipeline *)

Tactic Notation "inv_bind" hyp(H) "as" ident(x) ident(Hx) :=
  cbv zeta in H; apply bind_Ok in H as (x & Hx & H).

Lemma set_transient_base c key v c' : set_transient c key v = Ok c' -> base c' = base c.
Proof.
  unfold set_transient. destruct (transient c); [|discriminate]. now intros [= <-].
Qed.

Lemma populate_transient_colormap_base c df c' :
  _populate_transient_colormap c df = Ok c' -> base c' = base c.
Proof.
  unfold _populate_transient_colormap. destruct (is_none _); [now intros [= <-]|].
  intros H'. inv_bind H' as d Hd. inv_bind H' as col Hcol. inv_bind H' as m Hm.
  eapply set_transient_base, H'.
Qed.

(** Populating the overlay leaves the base configuration alone. *)
Lemma populate_transient_props_base on_missing c df c' :
  _populate_transient_props on_missing c df = Ok c' -> base c' = base c.
Proof.
  unfold _populate_transient_props. intros H'. inv_bind H' as c1 Hc1.
  apply populate_transient_colormap_base in Hc1.
  destruct (_ && _).
  - inv_bind H' as t1 Ht1. inv_bind H' as c2 Hc2. inv_bind H' as t2 Ht2.
    apply set_transient_base in Hc2, H'. congruence.
  - injection H' as <-. exact Hc1.
Qed.

Lemma get_base_eq c c' key default : base c' = base c -> get c' key default = get c key default.
Proof. intros Hb. unfold get. now rewrite Hb. Qed.

(** Layers added under new names go after the core layers. *)
Lemma dict_set_core (p q : Layers) key ch :
  Forall (fun k => k ∈ core_keys) (dict_keys p) -> key ∉ core_keys ->
  dict_set (app p q) key ch = app p (dict_set q key ch).
Proof.
  intros Hp Hkey. apply dict_set_after. intros Hin.
  rewrite Forall_forall in Hp. auto.
Qed.

Ltac not_core := unfold core_keys; rewrite !not_elem_of_cons; repeat split;
  (discriminate || apply not_elem_of_nil).

Section CorePrefix.
Variables (c : ChartSpec) (df : DataFrame) (p : Layers).
Hypothesis Hp : Forall (fun k => k ∈ core_keys) (dict_keys p).

Lemma lockdown_icon_layers_after q chart :
  exists q', _collect_lockdown_icon_layers c df (app p q) chart = app p q'.
Proof.
  unfold _collect_lockdown_icon_layers.
  destruct (has_column df "Coverage"); rewrite !dict_set_core by (assumption || not_core);
    eauto.
Qed.

Lemma lockdown_tooltip_layers_after q chart cursor :
  exists q', _collect_lockdown_tooltip_layers c df (app p q) chart cursor = app p q'.
Proof.
  unfold _collect_lockdown_tooltip_layers.
  destruct (truthy (get c "event_select" (VBool false)));
    rewrite !dict_set_core by (assumption || not_core); eauto.
Qed.

Lemma tooltip_layers_after q chart cursor layers :
  _collect_tooltip_layers c df (app p q) chart cursor = Ok layers ->
  exists q', layers = app p q'.
Proof.
  unfold _collect_tooltip_layers.
  destruct (negb (truthy (get c "has_tooltips" (VBool false)))); [intros [= <-]; eauto|].
  intros H'. inv_bind H' as l1 Hl1.
  assert (exists q1, l1 = app p q1) as [q1 ->].
  { destruct (truthy (get c "tooltip_points" (VBool false))).
    - inv_bind Hl1 as pts Hpts. injection Hl1 as <-.
      rewrite dict_set_core by (assumption || not_core). eauto.
    - injection Hl1 as <-. eauto. }
  inv_bind H' as l2 Hl2.
  assert (exists q2, l2 = app p q2) as [q2 ->].
  { destruct (truthy (get c "tooltip_text" (VBool false))).
    - inv_bind Hl2 as pts Hpts. injection Hl2 as <-.
      rewrite dict_set_core by (assumption || not_core). eauto.
    - injection Hl2 as <-. eauto. }
  cbv zeta in H'.
  match type of H' with
  | context [if truthy (get c "tooltip_rules" VNone) then ?a else ?b] =>
      assert (exists q3, (if truthy (get c "tooltip_rules" VNone) then a else b) = app p q3)
        as [q3 Hq3]
  end.
  { destruct (truthy (get c "tooltip_rules" VNone));
      rewrite ?dict_set_core by (assumption || not_core); eauto. }
  rewrite Hq3 in H'. clear Hq3.
  inv_bind H' as l4 Hl4.
  assert (exists q4, l4 = app p q4) as [q4 ->].
  { destruct (truthy (get c "lockdown_rules" (VBool false))).
    - inv_bind Hl4 as rules Hrules. injection Hl4 as <-.
      rewrite dict_set_core by (assumption || not_core). eauto.
    - injection Hl4 as <-. eauto. }
  cbv zeta in H'.
  match type of H' with
  | context [if truthy (get c "lockdown_icons" (VBool false)) then ?a else ?b] =>
      assert (exists q5, (if truthy (get c "lockdown_icons" (VBool false)) then a else b)
                         = app p q5) as [q5 Hq5]
  end.
  { destruct (truthy (get c "lockdown_icons" (VBool false)));
      [apply lockdown_icon_layers_after | eauto]. }
  rewrite Hq5 in H'. clear Hq5.
  destruct (_ || _).
  - injection H' as <-. apply lockdown_tooltip_layers_after.
  - injection H' as <-. eauto.
Qed.

Lemma emoji_layers_after on_missing q layers :
  _collect_emoji_legend_layers on_missing c df (app p q) = Ok layers ->
  exists q', layers = app p q'.
Proof.
  unfold _collect_emoji_legend_layers. intros H'.
  inv_bind H' as tokens Htokens.
  destruct (_ >? _); [discriminate|].
  inv_bind H' as offset Hoffset. inv_bind H' as y Hy. injection H' as <-.
  rewrite !dict_set_core by (assumption || not_core). eauto.
Qed.
End CorePrefix.

(** A compile call that returns a document has built the emoji legend
    when the configuration asks for it. *)
Lemma compile_body_emoji on_missing c df doc :
  compile_body on_missing c df = Ok doc ->
  truthy (get c "emoji_legend" (VBool false)) = true ->
  exists c' layers layers',
    base c' = base c
    /\ _collect_emoji_legend_layers on_missing c' df layers = Ok layers'.
Proof.
  unfold compile_body. intros H' Hemoji.
  inv_bind H' as c' Hc'. apply populate_transient_props_base in Hc'.
  inv_bind H' as click Hclick. inv_bind H' as l1 Hl1. inv_bind H' as fp Hfp.
  inv_bind H' as l2 Hl2. inv_bind H' as lines Hlines. inv_bind H' as points Hpoints.
  inv_bind H' as l3 Hl3. inv_bind H' as l4 Hl4. inv_bind H' as l5 Hl5.
  rewrite (get_base_eq _ _ _ _ Hc'), Hemoji in Hl5. eauto.
Qed.

(** The layers of a document compiled in native-legend mode. *)
Lemma compile_body_native_layers on_missing c df doc :
  compile_body on_missing c df = Ok doc ->
  truthy (_manual_legend c) = false ->
  exists c' click fake_points legend lines points rest,
    base c' = base c
    /\ legend_layer c' (new_chart df (_height c') (_width c')) = Ok legend
    /\ click_selection_of c' df = Ok click
    /\ _make_point_layer c' (new_chart df (_height c') (_width c')) (KInt 400) true
         = Ok fake_points
    /\ _make_line_layer c' (new_chart df (_height c') (_width c')) = Ok lines
    /\ _make_point_layer c' (new_chart df (_height c') (_width c'))
         (KVal (get c' "point_size" (VInt Const.DEFAULT_POINT_SIZE))) false = Ok points
    /\ doc_layers doc =
         transform_filter "false"
           (encode [("x", _get_x c' "x:Q"); ("y", _get_y c' "y:Q")]
              (set_mark "line" [] (new_chart df (_height c') (_width c'))))
         :: legend
         :: add_selection (cursor_of c')
              (encode [("x", _get_x c' "x:Q")]
                 (set_mark "point" [("size", KInt 0)]
                    (new_chart df (_height c') (_width c'))))
         :: add_selection click fake_points
         :: lines :: points :: rest.
Proof.
  unfold compile_body. intros H' Hnative.
  inv_bind H' as c' Hc'. apply populate_transient_props_base in Hc'.
  assert (truthy (_manual_legend c') = false) as Hnative'.
  { unfold _manual_legend in *. now rewrite (get_base_eq _ _ _ _ Hc'). }
  inv_bind H' as click Hclick. rewrite Hnative' in H'. cbn [negb] in H'.
  inv_bind H' as l1 Hl1. inv_bind Hl1 as legend Hlegend. injection Hl1 as <-.
  inv_bind H' as fp Hfp. inv_bind H' as l2 Hl2. injection Hl2 as <-.
  inv_bind H' as lines Hlines. inv_bind H' as points Hpoints.
  inv_bind H' as l3 Hl3. inv_bind H' as l4 Hl4. inv_bind H' as l5 Hl5.
  inv_bind H' as ml Hml. injection H' as <-. cbn [doc_layers].
  repeat (progress (cbn [dict_set] in Hl3; rewrite ?decide_False in Hl3 by discriminate)).
  match type of Hl3 with
  | _collect_tooltip_layers _ _ ?p _ _ = _ =>
      assert (Forall (fun k => k ∈ core_keys) (dict_keys p)) as Hp
        by (cbn; unfold core_keys; repeat constructor; set_solver);
      change p with (app p []) in Hl3;
      apply (tooltip_layers_after _ _ _ Hp) in Hl3 as [q3 ->];
      assert (exists q4, l4 = app p q4) as [q4 ->];
      [|assert (exists q5, l5 = app p q5) as [q5 ->]]
  end.
  - destruct (truthy (get c' "lockdown_extrapolation" (VBool false))).
    + inv_bind Hl4 as model Hmodel. injection Hl4 as <-.
      rewrite ?dict_set_core by (assumption || not_core). eauto.
    + injection Hl4 as <-. eauto.
  - destruct (truthy (get c' "emoji_legend" (VBool false))).
    + eapply emoji_layers_after; eauto.
    + injection Hl5 as <-. eauto.
  - exists c', click, fp, legend, lines, points, (dict_values q5).
    repeat split; assumption.
Qed.

(** C2: in native-legend mode every document the compiler returns has, as
    the first layer with a color channel, the legend layer: the point
    mark of size 0 that encodes x, y and the group color and carries the
    multi-selection [legend] bound to the legend.  It is the second layer
    of the sequence, after the colorless [fake_interactive] layer, and the
    content layers follow it: the lines are the fifth layer and the points
    the sixth. *)
Theorem legend_layer_is_first_color_layer (on_missing : missing_attr) (c : ChartSpec)
    (df : DataFrame) (doc : Document) :
  fst (compile on_missing c df) = Ok doc ->
  truthy (_manual_legend c) = false ->
  exists c' legend lines points,
    base c' = base c
    /\ legend_layer c' (new_chart df (_height c') (_width c')) = Ok legend
    /\ _make_line_layer c' (new_chart df (_height c') (_width c')) = Ok lines
    /\ _make_point_layer c' (new_chart df (_height c') (_width c'))
         (KVal (get c' "point_size" (VInt 45))) false = Ok points
    /\ List.find declares_color (doc_layers doc) = Some legend
    /\ doc_layers doc !! 1%nat = Some legend
    /\ doc_layers doc !! 4%nat = Some lines
    /\ doc_layers doc !! 5%nat = Some points
    /\ mark legend = Some ("point", [("size", KInt 0)])
    /\ map fst (encoding legend) = ["x"; "y"; "color"]
    /\ map sel_name (selections legend) = ["legend"]
    /\ map sel_bind (selections legend) = [Some BindLegend].
Proof.
  intros Hcompile Hnative. unfold compile in Hcompile.
  destruct (validate on_missing c df); [|discriminate]. cbn [fst] in Hcompile.
  apply compile_body_native_layers in Hcompile
    as (c' & click & fp & legend & lines & points & rest
        & Hbase & Hlegend & _ & _ & Hlines & Hpoints & Hlayers); [|exact Hnative].
  exists c', legend, lines, points.
  pose proof Hlegend as Hshape. unfold legend_layer in Hshape.
  inv_bind Hshape as color Hcolor. injection Hshape as <-.
  rewrite Hlayers. repeat split; try assumption; reflexivity.
Qed.

Lemma legend_layer_is_first_color_layer_witness :
  exists doc legend,
    fst (compile ReturnsNone native_example small_frame) = Ok doc
    /\ List.find declares_color (doc_layers doc) = Some legend
    /\ map sel_name (selections legend) = ["legend"].
Proof.
  destruct (fst (compile ReturnsNone native_example small_frame)) as [doc|e] eqn:Hdoc;
    [|vm_compute in Hdoc; discriminate].
  destruct (legend_layer_is_first_color_layer ReturnsNone native_example small_frame doc)
    as (c' & legend & lines & points & _ & _ & _ & _ & Hfind & _ & _ & _ & _ & _ & Hname & _).
  - exact Hdoc.
  - reflexivity.
  - exists doc, legend. auto.
Defined.

(** C10, counterexample: the emoji legend is enabled, there is no
    ['xdomain'] key and validation passes, but the emoji column has eight
    glyphs: the compile call ends in the capacity error, whatever
    attribute access does for an absent key. *)
Lemma capacity_error_before_xdomain :
  truthy (get emoji_no_xdomain "emoji_legend" (VBool false)) = true
  /\ base emoji_no_xdomain !! "xdomain" = None
  /\ fst (compile ReturnsNone emoji_no_xdomain (faces_frame 8))
       = Raise (ValueError "max 7 supported for now")
  /\ fst (compile RaisesAttributeError emoji_no_xdomain (faces_frame 8))
       = Raise (ValueError "max 7 supported for now")
  /\ fst (compile RaisesKeyError emoji_no_xdomain (faces_frame 8))
       = Raise (ValueError "max 7 supported for now").
Proof. repeat split; vm_compute; reflexivity. Qed.

(** C10, amended: with the emoji legend enabled and no ['xdomain'] key a
    compile call never returns a document.  When the steps before it
    succeed (validation, the layers built earlier, and an emoji column
    that yields at most seven tokens), the failure is the evaluation of
    [self.xdomain[1]] during emoji legend construction: the exception of
    the attribute access for the absent key, or a [TypeError] when that
    access gives [None]; a failure of an earlier step comes first. *)
Theorem emoji_legend_needs_xdomain (on_missing : missing_attr) (c : ChartSpec)
    (df : DataFrame) :
  truthy (get c "emoji_legend" (VBool false)) = true ->
  base c !! "xdomain" = None ->
  is_ok (fst (compile on_missing c df)) = false
  /\ (forall c' layers tokens,
        base c' = base c ->
        emoji_tokens df = Ok tokens ->
        (length tokens <= 7)%nat ->
        _collect_emoji_legend_layers on_missing c' df layers
        = Raise (missing_error on_missing "xdomain")).
Proof.
  intros Hemoji Hx. split.
  - unfold compile. destruct (validate on_missing c df); [|reflexivity]. cbn [fst].
    destruct (compile_body on_missing (with_transient c (Some ∅)) df) as [doc|e] eqn:Hbody;
      [|reflexivity].
    apply compile_body_emoji in Hbody as (c' & layers & layers' & Hbase & Hrun);
      [|exact Hemoji].
    assert (base c' !! "xdomain" = None) as Hx' by (rewrite Hbase; exact Hx).
    pose proof (collect_emoji_needs_xdomain on_missing c' df layers Hx') as Hfail.
    rewrite Hrun in Hfail. discriminate.
  - intros c' layers tokens Hbase Htok Hlen.
    apply (collect_emoji_missing_xdomain on_missing c' df layers tokens);
      [rewrite Hbase; exact Hx | exact Htok | exact Hlen].
Qed.

Lemma emoji_legend_needs_xdomain_witness :
  is_ok (fst (compile RaisesKeyError emoji_no_xdomain pizza_frame)) = false.
Proof.
  refine (proj1 (emoji_legend_needs_xdomain RaisesKeyError emoji_no_xdomain pizza_frame _ _));
    reflexivity.
Defined.

(** With one glyph in the emoji column the compile call reaches the
    x-offset and ends in the exception of the attribute access. *)
Example compile_without_xdomain :
  fst (compile RaisesKeyError emoji_no_xdomain pizza_frame) = Raise (KeyError "xdomain")
  /\ fst (compile RaisesAttributeError emoji_no_xdomain pizza_frame)
       = Raise (AttributeError "xdomain")
  /\ fst (compile ReturnsNone emoji_no_xdomain pizza_frame) = Raise TypeError.
Proof. repeat split; vm_compute; reflexivity. Qed.

(** * Further properties of the compiler *)

(** ** Focus predicates *)

Lemma show_click_focused_or_none_selected c :
  show (click_focused_or_none_selected_e c) = _click_focused_or_none_selected c.
Proof.
  unfold click_focused_or_none_selected_e, _click_focused_or_none_selected, _ensure_parens.
  cbn [show]. rewrite show_click_focused, show_someone_has_focus.
  f_equal. now rewrite !append_assoc.
Qed.

Lemma show_legend_focused_or_none_selected c :
  show (legend_focused_or_none_selected_e c) = _legend_focused_or_none_selected c.
Proof.
  unfold legend_focused_or_none_selected_e, _legend_focused_or_none_selected, _ensure_parens.
  cbn [show]. rewrite show_legend_hover_focused, show_someone_has_focus.
  f_equal. now rewrite !append_assoc.
Qed.

Lemma click_focused_implies_active rho c :
  eval rho (click_focused_e c) = true -> eval rho (click_is_active_e c) = true.
Proof.
  unfold click_focused_e. cbn [eval forallb]. now intros [H' _]%andb_true_iff.
Qed.

Lemma legend_focused_implies_active rho c :
  eval rho (legend_hover_focused_e c) = true -> eval rho (legend_is_active_e c) = true.
Proof.
  unfold legend_hover_focused_e.
  destruct (negb (truthy (_manual_legend c))); cbn [eval forallb];
    now intros [H' _]%andb_true_iff.
Qed.

(** X1: how the focus predicates relate, in every selection state: a
    datum in focus means that some selection is active; the
    in-focus-or-none-selected predicate is the disjunction of its click and
    legend variants, and it is false exactly when some selection is active
    and the datum is not in focus; with click selection switched off (or
    not configured) the click selection counts as inactive whatever the
    state of the renderer. *)
Theorem focus_predicates_relate (c : ChartSpec) (rho : string -> bool) :
  show (click_focused_or_none_selected_e c) = _click_focused_or_none_selected c
  /\ show (legend_focused_or_none_selected_e c) = _legend_focused_or_none_selected c
  /\ (eval rho (in_focus_e c) = true -> eval rho (someone_has_focus_e c) = true)
  /\ eval rho (in_focus_or_none_selected_e c)
     = eval rho (click_focused_or_none_selected_e c)
       || eval rho (legend_focused_or_none_selected_e c)
  /\ (eval rho (in_focus_or_none_selected_e c) = false
      <-> eval rho (someone_has_focus_e c) = true /\ eval rho (in_focus_e c) = false)
  /\ (get c "click_selection" (VBool false) = VBool false ->
      eval rho (click_is_active_e c) = false /\ eval rho (click_focused_e c) = false).
Proof.
  split; [apply show_click_focused_or_none_selected|].
  split; [apply show_legend_focused_or_none_selected|].
  split.
  { unfold in_focus_e, someone_has_focus_e. cbn [eval].
    intros [H'|H']%orb_true_iff.
    - now rewrite (click_focused_implies_active _ _ H').
    - rewrite (legend_focused_implies_active _ _ H'). apply orb_true_r. }
  split.
  { unfold in_focus_or_none_selected_e, click_focused_or_none_selected_e,
      legend_focused_or_none_selected_e, in_focus_e. cbn [eval].
    destruct (eval rho (click_focused_e c)), (eval rho (legend_hover_focused_e c)),
      (eval rho (someone_has_focus_e c)); reflexivity. }
  split.
  { unfold in_focus_or_none_selected_e. cbn [eval].
    destruct (eval rho (in_focus_e c)), (eval rho (someone_has_focus_e c)); cbn;
      split; try tauto; try discriminate; intros [? ?]; discriminate. }
  intros Hoff.
  assert (eval rho (click_is_active_e c) = false) as Hinactive.
  { unfold click_is_active_e, flag_e. rewrite Hoff. reflexivity. }
  split; [exact Hinactive | now apply click_focused_needs_active].
Qed.

Lemma focus_predicates_relate_witness :
  eval everything_valid (click_is_active_e click_disabled_example) = false
  /\ eval everything_valid (click_focused_e click_disabled_example) = false.
Proof.
  apply (focus_predicates_relate click_disabled_example everything_valid). reflexivity.
Defined.

(** ** The transient overlay after it is populated *)

Lemma prefer_transient_insert_ne c t key key' v default :
  key <> key' ->
  _prefer_transient (with_transient c (Some (<[key := v]> t))) key' default
  = _prefer_transient (with_transient c (Some t)) key' default.
Proof.
  intros Hne. unfold _prefer_transient. cbn [transient with_transient].
  now rewrite lookup_insert_ne.
Qed.

Lemma with_transient_same c t : transient c = Some t -> with_transient c (Some t) = c.
Proof. destruct c as [b t']. cbn. now intros ->. Qed.

(** What [_populate_transient_colormap] leaves in the overlay. *)
Lemma populate_transient_colormap_overlay c df t c' :
  transient c = Some t ->
  _populate_transient_colormap c df = Ok c' ->
  (get c "colormap" VNone = VNone /\ c' = c)
  \/ (exists m, get c "colormap" VNone <> VNone
        /\ c' = with_transient c (Some (<["colormap" := VDict m]> t))).
Proof.
  intros Ht H'. unfold _populate_transient_colormap in H'.
  destruct (get c "colormap" VNone) eqn:Hcm; cbn [is_none] in H'.
  1: { injection H' as <-. now left. }
  all: right; inv_bind H' as d0 Hd0; inv_bind H' as col Hcol; inv_bind H' as m Hm;
    unfold set_transient in H'; rewrite Ht in H'; injection H' as <-;
    exists m; split; [discriminate | reflexivity].
Qed.

(** The overlay [_populate_transient_props] leaves: the overlay of
    [_populate_transient_colormap], with the legend title written under
    ['colorby'] and then ['detailby'] when the grouping is aliased. *)
Lemma populate_transient_props_overlay on_missing c df t c' :
  transient c = Some t ->
  _populate_transient_props on_missing c df = Ok c' ->
  exists t1,
    t1 !! "colorby" = t !! "colorby"
    /\ t1 !! "detailby" = t !! "detailby"
    /\ (get c "colormap" VNone = VNone -> t1 = t)
    /\ (get c "colormap" VNone <> VNone -> exists m, t1 !! "colormap" = Some (VDict m))
    /\ c' = with_transient c
              (Some (if negb (is_none (get c "readable_group_name" VNone))
                        && truthy (get c "legend_selection" (VBool false))
                     then
                       let title :=
                         VStr ("Select_" ++ py_str (get c "readable_group_name" VNone)) in
                       <["detailby" := title]> (<["colorby" := title]> t1)
                     else t1)).
Proof.
  intros Ht Hrun.
  unfold _populate_transient_props in Hrun. inv_bind Hrun as c1 Hc1.
  assert (exists t1, c1 = with_transient c (Some t1)
                     /\ t1 !! "colorby" = t !! "colorby"
                     /\ t1 !! "detailby" = t !! "detailby"
                     /\ (get c "colormap" VNone = VNone -> t1 = t)
                     /\ (get c "colormap" VNone <> VNone ->
                         exists m, t1 !! "colormap" = Some (VDict m)))
    as (t1 & -> & Hcb & Hdb & Hnone & Hsome).
  { destruct (populate_transient_colormap_overlay _ _ _ _ Ht Hc1)
      as [[Hcm ->] | (m & Hcm & ->)].
    - exists t. rewrite (with_transient_same _ _ Ht). repeat split; auto. congruence.
    - eexists. repeat split; try reflexivity.
      + now rewrite lookup_insert_ne.
      + now rewrite lookup_insert_ne.
      + congruence.
      + intros _. exists m. now rewrite lookup_insert_eq. }
  exists t1. do 4 (split; [assumption|]).
  rewrite !get_with_transient in Hrun.
  destruct (negb (is_none (get c "readable_group_name" VNone))
            && truthy (get c "legend_selection" (VBool false))) eqn:Hal.
  - inv_bind Hrun as title Htitle.
    unfold _get_old_legend_title in Htitle. rewrite !get_with_transient in Htitle.
    rewrite Hal in Htitle. injection Htitle as <-.
    inv_bind Hrun as c2 Hc2.
    unfold set_transient in Hc2. cbn [transient with_transient] in Hc2. injection Hc2 as <-.
    inv_bind Hrun as title2 Htitle2.
    unfold _get_old_legend_title in Htitle2. rewrite !get_with_transient in Htitle2.
    rewrite Hal in Htitle2. injection Htitle2 as <-.
    unfold set_transient in Hrun. cbn [transient with_transient] in Hrun.
    injection Hrun as <-. reflexivity.
  - injection Hrun as <-. reflexivity.
Qed.

(** X2: the legend title aliases the grouping columns.  When a readable
    group name [R] is configured and legend selection is enabled,
    populating the overlay makes both the colors-by and the details-by
    column ['Select_R'], whatever ['colorby'] and ['detailby'] say;
    otherwise both stay as they were.  The base configuration is not
    touched, and the overlay holds a color mapping exactly when the
    configuration has one. *)
Theorem legend_title_aliasing (on_missing : missing_attr) (c : ChartSpec) (df : DataFrame)
    (t : gmap string value) (c' : ChartSpec) :
  transient c = Some t ->
  _populate_transient_props on_missing c df = Ok c' ->
  let R := get c "readable_group_name" VNone in
  let aliased := negb (is_none R) && truthy (get c "legend_selection" (VBool false)) in
  base c' = base c
  /\ (aliased = true ->
      _colorby c' = VStr ("Select_" ++ py_str R) /\ _detailby c' = VStr ("Select_" ++ py_str R))
  /\ (aliased = false -> _colorby c' = _colorby c /\ _detailby c' = _detailby c)
  /\ (get c "colormap" VNone = VNone -> _colormap c' = _colormap c)
  /\ (get c "colormap" VNone <> VNone -> exists m, _colormap c' = VDict m).
Proof.
  intros Ht Hrun R aliased. subst aliased R.
  split; [eapply populate_transient_props_base, Hrun|].
  destruct (populate_transient_props_overlay _ _ _ _ _ Ht Hrun)
    as (t1 & Hcb & Hdb & Hnone & Hsome & ->).
  destruct (negb (is_none (get c "readable_group_name" VNone))
            && truthy (get c "legend_selection" (VBool false))).
  - split; [intros _|split; [discriminate|split]].
    + unfold _colorby, _detailby, _prefer_transient. cbn [transient with_transient].
      rewrite lookup_insert_eq. rewrite lookup_insert_ne by discriminate.
      now rewrite lookup_insert_eq.
    + intros Hcm. unfold _colormap, _prefer_transient. cbn [transient with_transient].
      rewrite !lookup_insert_ne by discriminate. rewrite (Hnone Hcm), Ht. reflexivity.
    + intros Hcm. destruct (Hsome Hcm) as [m Hm]. exists m.
      unfold _colormap, _prefer_transient. cbn [transient with_transient].
      rewrite !lookup_insert_ne by discriminate. now rewrite Hm.
  - split; [discriminate|split; [intros _|split]].
    + unfold _colorby, _detailby, _prefer_transient. cbn [transient with_transient].
      rewrite Ht, Hcb, Hdb. split; reflexivity.
    + intros Hcm. unfold _colormap, _prefer_transient. cbn [transient with_transient].
      rewrite (Hnone Hcm), Ht. reflexivity.
    + intros Hcm. destruct (Hsome Hcm) as [m Hm]. exists m.
      unfold _colormap, _prefer_transient. cbn [transient with_transient]. now rewrite Hm.
Qed.

Lemma legend_title_aliasing_witness :
  exists c',
    _populate_transient_props ReturnsNone alias_example small_frame = Ok c'
    /\ _colorby c' = VStr "Select_state" /\ _detailby c' = VStr "Select_state".
Proof.
  destruct (_populate_transient_props ReturnsNone alias_example small_frame) as [c'|e] eqn:Hrun;
    [|vm_compute in Hrun; discriminate].
  exists c'. split; [reflexivity|].
  destruct (legend_title_aliasing ReturnsNone alias_example small_frame ∅ c' eq_refl Hrun)
    as (_ & Halias & _).
  apply Halias. reflexivity.
Defined.

(** ** What can fail after validation *)









(** X5: validation checks the x and y columns only.  In native-legend
    mode with click selection enabled, a details-by column that is not in
    the data makes the compile call end in the [KeyError] of the column
    lookup (here with no color mapping and no readable group name, so the
    column is the configured ['detailby']); the overlay is removed all
    the same. *)
Theorem compile_missing_detail_column (on_missing : missing_attr) (c : ChartSpec)
    (df : DataFrame) (e : error) :
  validate on_missing c df = Ok tt ->
  truthy (_manual_legend c) = false ->
  truthy (get c "click_selection" (VBool false)) = true ->
  get c "colormap" VNone = VNone ->
  get c "readable_group_name" VNone = VNone ->
  column df (get c "detailby" VNone) = Raise e ->
  compile on_missing c df = (Raise e, with_transient c None)
  /\ exists key, e = KeyError key.
Proof.
  intros Hvalid Hnative Hclick Hcm Hname Hcol.
  split.
  - unfold compile. rewrite Hvalid. f_equal. unfold compile_body.
    unfold _populate_transient_props, _populate_transient_colormap.
    rewrite get_with_transient, Hcm. cbn [is_none mbind result_bind].
    rewrite !get_with_transient, Hname. cbn [is_none mbind result_bind negb andb].
    cbv zeta. unfold click_selection_of.
    unfold _manual_legend in *. rewrite !get_with_transient, Hnative, Hclick.
    cbn [negb]. unfold _detailby, _prefer_transient. cbn [transient with_transient].
    rewrite lookup_empty, get_with_transient, Hcol. reflexivity.
  - unfold column in Hcol. destruct (get c "detailby" VNone) as [| | |s| |];
      try (injection Hcol as <-; eauto).
    destruct (df !! s); [discriminate | injection Hcol as <-; eauto].
Qed.

Lemma compile_missing_detail_column_witness :
  compile ReturnsNone missing_column_example small_frame
  = (Raise (KeyError "county"), with_transient missing_column_example None).
Proof.
  apply (compile_missing_detail_column ReturnsNone missing_column_example small_frame
           (KeyError "county")); reflexivity.
Defined.

(** ** Manual-legend mode *)

(** X6: in manual-legend mode the document has no legend layer.  Its
    layers start with the colorless [fake_interactive] layer, then the
    invisible points that carry the click selection, and only then the
    points that carry the hover selection [cursor], followed by the lines
    and the points; the click selection is a multi-selection without a
    dropdown, every color channel has its legend switched off, and the
    document carries the manual legend beside the chart and no legend
    symbol setting. *)
Theorem manual_mode_layers (on_missing : missing_attr) (c : ChartSpec) (df : DataFrame)
    (doc : Document) :
  fst (compile on_missing c df) = Ok doc ->
  truthy (_manual_legend c) = true ->
  exists c' click fake_points selectors lines points rest legend color,
    base c' = base c
    /\ click_selection_of c' df = Ok click
    /\ sel_type click = "multi" /\ sel_bind click = None
    /\ _alt_color c' = Ok color
    /\ (exists field scale, color = EColor field scale true)
    /\ _make_point_layer c' (new_chart df (_height c') (_width c')) (KInt 400) true
         = Ok fake_points
    /\ _make_point_layer c' (new_chart df (_height c') (_width c')) (KInt 0) true
         = Ok selectors
    /\ _make_line_layer c' (new_chart df (_height c') (_width c')) = Ok lines
    /\ _make_point_layer c' (new_chart df (_height c') (_width c'))
         (KVal (get c' "point_size" (VInt 45))) false = Ok points
    /\ doc_layers doc =
         transform_filter "false"
           (encode [("x", _get_x c' "x:Q"); ("y", _get_y c' "y:Q")]
              (set_mark "line" [] (new_chart df (_height c') (_width c'))))
         :: add_selection click fake_points
         :: add_selection (cursor_of c') selectors
         :: lines :: points :: rest
    /\ sel_clear (cursor_of c') = Some "mouseout"
    /\ _make_manual_legend on_missing c' df click = Ok legend
    /\ doc_manual_legend doc = Some legend
    /\ doc_legend_symbol doc = None.
Proof.
  intros Hcompile Hmanual. unfold compile in Hcompile.
  destruct (validate on_missing c df); [|discriminate]. cbn [fst] in Hcompile.
  unfold compile_body in Hcompile.
  inv_bind Hcompile as c' Hc'. apply populate_transient_props_base in Hc'.
  cbn [base with_transient] in Hc'.
  assert (truthy (_manual_legend c') = true) as Hmanual'.
  { unfold _manual_legend in *. now rewrite (get_base_eq _ _ _ _ Hc'). }
  inv_bind Hcompile as click Hclick. rewrite Hmanual' in Hcompile. cbn [negb] in Hcompile.
  inv_bind Hcompile as l1 Hl1. injection Hl1 as <-.
  inv_bind Hcompile as fp Hfp. inv_bind Hcompile as l2 Hl2.
  inv_bind Hl2 as selectors Hselectors. injection Hl2 as <-.
  inv_bind Hcompile as lines Hlines. inv_bind Hcompile as points Hpoints.
  inv_bind Hcompile as l3 Hl3. inv_bind Hcompile as l4 Hl4. inv_bind Hcompile as l5 Hl5.
  inv_bind Hcompile as ml Hml. inv_bind Hml as legend Hlegend. injection Hml as <-.
  injection Hcompile as <-. cbn [doc_layers doc_manual_legend doc_legend_symbol].
  repeat (progress (cbn [dict_set] in Hl3; rewrite ?decide_False in Hl3 by discriminate)).
  match type of Hl3 with
  | _collect_tooltip_layers _ _ ?p _ _ = _ =>
      assert (Forall (fun k => k ∈ core_keys) (dict_keys p)) as Hp
        by (cbn; unfold core_keys; repeat constructor; set_solver);
      change p with (app p []) in Hl3;
      apply (tooltip_layers_after _ _ _ Hp) in Hl3 as [q3 ->];
      assert (exists q4, l4 = app p q4) as [q4 ->];
      [|assert (exists q5, l5 = app p q5) as [q5 ->]]
  end.
  - destruct (truthy (get c' "lockdown_extrapolation" (VBool false))).
    + inv_bind Hl4 as model Hmodel. injection Hl4 as <-.
      rewrite ?dict_set_core by (assumption || not_core). eauto.
    + injection Hl4 as <-. eauto.
  - destruct (truthy (get c' "emoji_legend" (VBool false))).
    + eapply emoji_layers_after; eauto.
    + injection Hl5 as <-. eauto.
  - pose proof Hfp as Hcolor. unfold _make_point_layer in Hcolor.
    inv_bind Hcolor as color Hcolor'.
    exists c', click, fp, selectors, lines, points, (dict_values q5), legend, color.
    unfold click_selection_of in Hclick. rewrite Hmanual' in Hclick.
    cbn [negb mbind result_bind] in Hclick.
    pose proof Hclick as Hshape. injection Hshape as <-.
    pose proof Hcolor' as Hfield. unfold _alt_color in Hfield.
    inv_bind Hfield as scale Hscale. injection Hfield as Hfield. rewrite Hmanual' in Hfield.
    unfold cursor_of. rewrite Hmanual'.
    repeat split; try assumption; try reflexivity.
    + unfold click_selection_of. now rewrite Hmanual'.
    + eauto.
Qed.

Lemma manual_mode_layers_witness :
  exists doc legend,
    fst (compile ReturnsNone manual_example manual_three_groups) = Ok doc
    /\ doc_manual_legend doc = Some legend
    /\ doc_legend_symbol doc = None.
Proof.
  destruct (fst (compile ReturnsNone manual_example manual_three_groups)) as [doc|e] eqn:Hdoc;
    [|vm_compute in Hdoc; discriminate].
  destruct (manual_mode_layers ReturnsNone manual_example manual_three_groups doc Hdoc eq_refl)
    as (c' & click & fp & sel & lines & points & rest & legend & color & H').
  exists doc, legend. split; [reflexivity|]. tauto.
Defined.

(** ** ColorAssigner: order and capacity *)

Lemma unique_aux_NoDup {A} `{EqDecision A} (seen l : list A) : NoDup (unique_aux seen l).
Proof.
  revert seen. induction l as [|x l IH]; intros seen; cbn; [constructor|].
  case_bool_decide; [apply IH|]. apply NoDup_cons. split; [|apply IH].
  rewrite unique_aux_elem. intros [_ Hx]. apply Hx, list_elem_of_here.
Qed.

Lemma unique_NoDup {A} `{EqDecision A} (l : list A) : NoDup (unique l).
Proof. apply unique_aux_NoDup. Qed.

Lemma dict_in_app_new (d : list (cell * string)) g color g' :
  g' <> g -> dict_in g' (app d [(g, color)]) = dict_in g' d.
Proof.
  intros Hne. unfold dict_in. induction d as [|[k v] d IH]; cbn.
  - now rewrite decide_False by congruence.
  - destruct (decide (k = g')); [reflexivity | exact IH].
Qed.

Lemma filter_new_groups (d : list (cell * string)) g color (groups : list cell) :
  g ∉ groups ->
  filter (fun g' => dict_in g' (app d [(g, color)]) = false) groups
  = filter (fun g' => dict_in g' d = false) groups.
Proof.
  intros Hg. induction groups as [|g' groups IH]; [reflexivity|].
  apply not_elem_of_cons in Hg as [Hne Hg].
  rewrite !filter_cons, dict_in_app_new by congruence. rewrite IH by exact Hg. reflexivity.
Qed.

Section AssignOrder.
Implicit Types (groups : list cell) (d m : list (cell * string)).
#[local] Opaque COLOR_SCHEME.

(** The loop can only fail by running off the palette. *)
Lemma assign_colors_Raise groups dc d idx e :
  assign_colors groups dc d idx = Raise e -> e = IndexError /\ dc = None.
Proof.
  revert d idx. induction groups as [|group groups IH]; intros d idx; cbn; [discriminate|].
  destruct (dict_in group d); [apply IH|].
  destruct dc as [dc|].
  - intros H'. apply IH in H' as [_ [=]].
  - destruct (skip_used (drop idx COLOR_SCHEME) idx d) as [i|e'] eqn:Hskip; cbn.
    + destruct (COLOR_SCHEME !! i); [|now intros [= <-]].
      intros H'. now apply IH in H'.
    + apply skip_used_Raise in Hskip as [-> _]. now intros [= <-].
Qed.

(** Without a default color: the mapping given comes first, unchanged,
    then one entry per new group, in the order of the groups, with
    palette colors that are pairwise different and not among the colors
    given. *)
Lemma assign_colors_appends groups d idx m :
  NoDup groups ->
  assign_colors groups None d idx = Ok m ->
  exists new,
    m = app d new
    /\ dict_keys new = filter (fun g => dict_in g d = false) groups
    /\ NoDup (dict_values new)
    /\ forall color, color ∈ dict_values new -> color ∈ COLOR_SCHEME /\ color ∉ dict_values d.
Proof.
  revert d idx. induction groups as [|group groups IH]; intros d idx Hnodup H'.
  - cbn in H'. injection H' as <-. exists []. rewrite app_nil_r.
    split; [reflexivity|]. split; [reflexivity|].
    split; [apply NoDup_nil_2 | intros color Hc; inversion Hc].
  - apply NoDup_cons in Hnodup as [Hfresh Hnodup].
    destruct (dict_get d group) as [v0|] eqn:Hget.
    + cbn in H'. rewrite (proj2 (dict_in_get d group)) in H' by eauto.
      destruct (IH _ _ Hnodup H') as (new & -> & Hkeys & Hvals & Hpal).
      exists new. repeat split; try assumption; try (now apply Hpal).
      rewrite filter_cons_False; [exact Hkeys|].
      rewrite (proj2 (dict_in_get d group)) by eauto. discriminate.
    + apply assign_colors_cons_new in H' as (i & color & _ & Hi & Hunused & _ & H');
        [|exact Hget].
      rewrite dict_set_new in H' by exact Hget.
      destruct (IH _ _ Hnodup H') as (new & -> & Hkeys & Hvals & Hpal).
      exists ((group, color) :: new). rewrite <- app_assoc. split; [reflexivity|].
      assert (forall c', c' ∈ dict_values new ->
                c' ∈ COLOR_SCHEME /\ (c' ∉ dict_values d) /\ c' <> color) as Hpal'.
      { intros c' Hc'. destruct (Hpal c' Hc') as [Hin Hnot]. split; [exact Hin|].
        unfold dict_values in Hnot. rewrite map_app in Hnot.
        rewrite not_elem_of_app in Hnot. destruct Hnot as [Hd Hc]. split; [exact Hd|].
        intros ->. apply Hc. apply list_elem_of_here. }
      split; [|split].
      * cbn [dict_keys map fst]. rewrite filter_cons_True
          by (apply dict_in_false; exact Hget).
        f_equal. fold (dict_keys new). rewrite Hkeys. now apply filter_new_groups.
      * cbn [dict_values map snd]. apply NoDup_cons. split; [|exact Hvals].
        intros Hc. now destruct (Hpal' _ Hc) as (_ & _ & ?).
      * intros c' Hc'. cbn [dict_values map snd] in Hc'.
        apply elem_of_cons in Hc' as [->|Hc'].
        -- split; [|exact Hunused]. apply list_elem_of_lookup. eauto.
        -- destruct (Hpal' _ Hc') as (? & ? & _). auto.
Qed.

(** With a default color the new groups are appended with that color. *)
Lemma assign_colors_default_appends groups dc d idx :
  NoDup groups ->
  assign_colors groups (Some dc) d idx
  = Ok (app d (map (fun g => (g, dc)) (filter (fun g => dict_in g d = false) groups))).
Proof.
  revert d. induction groups as [|group groups IH]; intros d Hnodup.
  - cbn. now rewrite app_nil_r.
  - apply NoDup_cons in Hnodup as [Hfresh Hnodup]. cbn [assign_colors].
    destruct (dict_in group d) eqn:Hin.
    + rewrite IH by exact Hnodup. rewrite filter_cons_False; [reflexivity|].
      rewrite Hin. discriminate.
    + rewrite IH by exact Hnodup. apply dict_in_false in Hin.
      rewrite dict_set_new by exact Hin.
      rewrite filter_cons_True by (apply dict_in_false; exact Hin).
      rewrite filter_new_groups by exact Hfresh. cbn [map]. now rewrite <- app_assoc.
Qed.
#[local] Transparent COLOR_SCHEME.
End AssignOrder.

Lemma distinct_palette_colors (colors : list string) :
  NoDup colors -> (forall color, color ∈ colors -> color ∈ COLOR_SCHEME) ->
  (length colors <= 51)%nat.
Proof.
  intros Hnodup Hall. rewrite <- COLOR_SCHEME_distinct.
  apply submseteq_length, NoDup_submseteq; [exact Hnodup|].
  intros color Hcolor. apply elem_of_remove_dups. auto.
Qed.

(** X7: the color scale keeps the order of the user's mapping.  When a
    color mapping [P] is supplied and the overlay is populated, the
    mapping written is [P] followed by one entry for every group value
    of the data that [P] does not name, in the order the values are first
    met; so the color channel built afterwards lists as its scale domain
    the keys of [P] and then the new groups, with the range aligned. *)
Theorem colormap_order (c : ChartSpec) (df : DataFrame) (t : gmap string value)
    (P : list (cell * string)) (col : list cell) (c' : ChartSpec) :
  transient c = Some t ->
  get c "colormap" VNone = VDict P ->
  column df (_colorby c) = Ok col ->
  _populate_transient_colormap c df = Ok c' ->
  exists new,
    transient c' = Some (<["colormap" := VDict (app P new)]> t)
    /\ dict_keys new = filter (fun g => dict_in g P = false) (unique col)
    /\ (forall dc, default_color_of c = Some dc -> dict_values new = replicate (length new) dc)
    /\ _alt_color c'
       = Ok (EColor (py_str (_colorby c) ++ ":N")
               (Some (app (dict_keys P) (dict_keys new), app (dict_values P) (dict_values new)))
               (truthy (_manual_legend c))).
Proof.
  intros Ht HP Hcol Hrun. unfold _populate_transient_colormap in Hrun.
  rewrite HP, Hcol in Hrun. cbn [is_none py_dict mbind result_bind] in Hrun.
  inv_bind Hrun as m Hm. unfold set_transient in Hrun. rewrite Ht in Hrun.
  injection Hrun as <-.
  assert (exists new, m = app P new
            /\ dict_keys new = filter (fun g => dict_in g P = false) (unique col)
            /\ (forall dc, default_color_of c = Some dc ->
                  dict_values new = replicate (length new) dc))
    as (new & -> & Hkeys & Hdefault).
  { destruct (default_color_of c) as [dc|].
    - rewrite assign_colors_default_appends in Hm by apply unique_NoDup.
      injection Hm as <-. eexists. split; [reflexivity|]. split.
      + unfold dict_keys. rewrite map_map. cbn. apply map_id.
      + intros dc' [= <-]. unfold dict_values. rewrite map_map, length_map. cbn.
        generalize (filter (fun g => dict_in g P = false) (unique col)).
        intros l. induction l as [|x l IH]; cbn; [reflexivity | now rewrite IH].
    - apply assign_colors_appends in Hm as (new & -> & Hkeys & _); [|apply unique_NoDup].
      exists new. repeat split; [exact Hkeys | discriminate]. }
  exists new. split; [reflexivity|]. split; [exact Hkeys|]. split; [exact Hdefault|].
  unfold _alt_color, _colormap, _colorby, _manual_legend, _prefer_transient.
  cbn [transient with_transient]. rewrite lookup_insert_eq.
  rewrite lookup_insert_ne by discriminate. rewrite Ht.
  cbn [mbind result_bind]. unfold dict_keys, dict_values. rewrite !map_app. reflexivity.
Qed.

Lemma colormap_order_witness :
  exists new,
    transient (with_transient partial_colormap
                 (Some (<["colormap" := VDict [(CStr "NY", "#4e79a7"); (CStr "CA", "#f28e2c")]]> ∅)))
    = Some (<["colormap" := VDict (app [(CStr "NY", "#4e79a7")] new)]> ∅)
    /\ dict_keys new = [CStr "CA"].
Proof.
  destruct (colormap_order partial_colormap two_states ∅ [(CStr "NY", "#4e79a7")]
              [CStr "CA"; CStr "NY"; CStr "CA"]
              (with_transient partial_colormap
                 (Some (<["colormap" := VDict [(CStr "NY", "#4e79a7"); (CStr "CA", "#f28e2c")]]> ∅))))
    as (new & Ht & Hkeys & _); try reflexivity.
  exists new. split; [exact Ht | exact Hkeys].
Defined.

(** X8: the palette serves 51 new groups, not 53.  Without a default
    color every group that the supplied mapping does not name takes a
    palette color of its own, and two of the 53 palette entries repeat
    earlier ones; so when more than 51 distinct group values are missing
    from the mapping, populating the overlay ends in an [IndexError]. *)
Theorem palette_exhausted (c : ChartSpec) (df : DataFrame)
    (P : list (cell * string)) (col : list cell) :
  get c "colormap" VNone = VDict P ->
  default_color_of c = None ->
  column df (_colorby c) = Ok col ->
  (51 < length (filter (fun g => dict_in g P = false) (unique col)))%nat ->
  _populate_transient_colormap c df = Raise IndexError.
Proof.
  intros HP Hdc Hcol Hmany. unfold _populate_transient_colormap.
  rewrite HP, Hcol, Hdc. cbn [is_none py_dict mbind result_bind].
  destruct (assign_colors (unique col) None P 0) as [m|e] eqn:Hm.
  - exfalso. apply assign_colors_appends in Hm as (new & _ & Hkeys & Hnodup & Hpal);
      [|apply unique_NoDup].
    assert (length (dict_values new) <= 51)%nat as Hle.
    { apply distinct_palette_colors; [exact Hnodup|]. intros color Hc. now apply Hpal. }
    rewrite <- Hkeys in Hmany. unfold dict_keys, dict_values in *.
    rewrite length_map in *. lia.
  - apply assign_colors_Raise in Hm as [-> _]. reflexivity.
Qed.

Lemma palette_exhausted_witness :
  _populate_transient_colormap many_groups_example (numbered_groups 52) = Raise IndexError.
Proof.
  apply (palette_exhausted many_groups_example (numbered_groups 52) []
           (map (fun i => CInt (Z.of_nat i)) (seq 0 52))).
  - reflexivity.
  - reflexivity.
  - reflexivity.
  - vm_compute. lia.
Defined.

(** ** Emoji tokens *)

Lemma append_nil_r (s : string) : s ++ "" = s.
Proof.
  induction s as [|a s IH]; [reflexivity|].
  change (String a (s ++ "") = String a s). now f_equal.
Qed.

Lemma concat_cons (x : string) (l : list string) :
  String.concat "" (x :: l) = x ++ String.concat "" l.
Proof. destruct l; cbn; [now rewrite append_nil_r | reflexivity]. Qed.

Lemma append_nonempty (a b : string) : a <> "" -> a ++ b <> "".
Proof. destruct a; [congruence | discriminate]. Qed.

Lemma chars_from_concat cur s : String.concat "" (chars_from cur s) = cur ++ s.
Proof.
  revert cur. induction s as [|a s IH]; intros cur; cbn [chars_from].
  - cbn. now rewrite append_nil_r.
  - destruct (is_continuation_byte a).
    + rewrite IH, append_assoc. reflexivity.
    + rewrite concat_cons, IH. reflexivity.
Qed.

Lemma chars_from_nonempty cur s : cur <> "" -> Forall (fun c => c <> "") (chars_from cur s).
Proof.
  revert cur. induction s as [|a s IH]; intros cur Hcur; cbn [chars_from].
  - now constructor.
  - destruct (is_continuation_byte a).
    + apply IH. now apply append_nonempty.
    + constructor; [exact Hcur|]. apply IH. discriminate.
Qed.

(** Iterating a string gives back its bytes: the code points, joined,
    are the string, and none of them is empty. *)
Lemma chars_concat s : String.concat "" (chars s) = s.
Proof. destruct s as [|a s]; [reflexivity|]. cbn [chars]. apply chars_from_concat. Qed.

Lemma chars_nonempty s : Forall (fun c => c <> "") (chars s).
Proof.
  destruct s as [|a s]; [constructor|]. cbn [chars]. apply chars_from_nonempty. discriminate.
Qed.

Lemma emoji_gen_loop_concat cur saw_sep rest :
  String.concat "" (emoji_gen_loop cur saw_sep rest) = cur ++ String.concat "" rest.
Proof.
  revert cur saw_sep. induction rest as [|c rest IH]; intros cur saw_sep; cbn [emoji_gen_loop].
  - cbn. now rewrite append_nil_r.
  - destruct (negb saw_sep && negb (is_sep c)).
    + rewrite !concat_cons, IH. reflexivity.
    + rewrite IH, concat_cons, append_assoc. reflexivity.
Qed.

Lemma emoji_gen_loop_length cur saw_sep rest :
  (length (emoji_gen_loop cur saw_sep rest) <= S (length rest))%nat.
Proof.
  revert cur saw_sep. induction rest as [|c rest IH]; intros cur saw_sep; cbn; [lia|].
  destruct (negb saw_sep && negb (is_sep c)); cbn.
  - specialize (IH c (is_sep c)). lia.
  - specialize (IH (cur ++ c) (is_sep c)). lia.
Qed.

Lemma emoji_gen_loop_nonempty cur saw_sep rest :
  cur <> "" -> Forall (fun c => c <> "") rest ->
  Forall (fun t => t <> "") (emoji_gen_loop cur saw_sep rest).
Proof.
  revert cur saw_sep. induction rest as [|c rest IH]; intros cur saw_sep Hcur Hrest; cbn.
  - now constructor.
  - apply Forall_cons in Hrest as [Hc Hrest].
    destruct (negb saw_sep && negb (is_sep c)).
    + constructor; [exact Hcur | now apply IH].
    + apply IH; [now apply append_nonempty | exact Hrest].
Qed.

Lemma starts_with_glyph_mono l1 l2 token :
  (forall c, c ∈ l1 -> c ∈ l2) -> starts_with_glyph l1 token -> starts_with_glyph l2 token.
Proof. intros Hsub (c & tail & Hc & Hsep & ->). exists c, tail. auto. Qed.

(** The first token extends the current one; every later token begins
    with a code point that is not a joiner or selector. *)
Lemma emoji_gen_loop_starts cur saw_sep rest :
  exists ext tokens,
    emoji_gen_loop cur saw_sep rest = (cur ++ ext) :: tokens
    /\ Forall (starts_with_glyph rest) tokens.
Proof.
  revert cur saw_sep. induction rest as [|c rest IH]; intros cur saw_sep; cbn [emoji_gen_loop].
  - exists "", []. rewrite append_nil_r. split; [reflexivity | constructor].
  - destruct (negb saw_sep && negb (is_sep c)) eqn:Hnew.
    + destruct (IH c (is_sep c)) as (ext & tokens & -> & Htokens).
      exists "", ((c ++ ext) :: tokens). rewrite append_nil_r. split; [reflexivity|].
      apply andb_true_iff in Hnew as [_ Hsep%negb_true_iff].
      constructor.
      * exists c, ext. split; [apply list_elem_of_here | auto].
      * eapply Forall_impl; [exact Htokens|]. intros token.
        apply starts_with_glyph_mono. intros c' Hc'. now apply list_elem_of_further.
    + destruct (IH (cur ++ c) (is_sep c)) as (ext & tokens & -> & Htokens).
      exists (c ++ ext), tokens. rewrite append_assoc. split; [reflexivity|].
      eapply Forall_impl; [exact Htokens|]. intros token.
      apply starts_with_glyph_mono. intros c' Hc'. now apply list_elem_of_further.
Qed.

(** X9: the generator cuts the code points into tokens without losing
    or reordering anything.  For a sequence that starts with the code
    point [c] it yields a first token that begins with [c] and then
    tokens that each begin with a code point other than a joiner or
    selector; joined together the tokens are the code points joined
    together, there are at most as many tokens as code points, and no
    token is empty when no code point is.  For the code points of one
    non-empty string the tokens joined are the string again.  On an empty
    sequence the generator raises [IndexError]. *)
Theorem emoji_gen_partitions (c : string) (rest : list string) :
  _emoji_gen [] = Raise IndexError
  /\ exists ext tokens,
      _emoji_gen (c :: rest) = Ok ((c ++ ext) :: tokens)
      /\ Forall (starts_with_glyph rest) tokens
      /\ String.concat "" ((c ++ ext) :: tokens) = String.concat "" (c :: rest)
      /\ (length ((c ++ ext) :: tokens) <= length (c :: rest))%nat
      /\ (Forall (fun p => p <> "") (c :: rest) ->
          Forall (fun t => t <> "") ((c ++ ext) :: tokens))
      /\ (forall s, chars s = c :: rest ->
          String.concat "" ((c ++ ext) :: tokens) = s
          /\ Forall (fun t => t <> "") ((c ++ ext) :: tokens)).
Proof.
  split; [reflexivity|].
  destruct (emoji_gen_loop_starts c false rest) as (ext & tokens & Hloop & Hstarts).
  exists ext, tokens. cbn [_emoji_gen]. rewrite Hloop.
  assert (String.concat "" ((c ++ ext) :: tokens) = String.concat "" (c :: rest)) as Hconcat.
  { rewrite <- Hloop, emoji_gen_loop_concat, concat_cons. reflexivity. }
  assert (Forall (fun p => p <> "") (c :: rest) ->
          Forall (fun t => t <> "") ((c ++ ext) :: tokens)) as Hnonempty.
  { intros [Hc Hrest]%Forall_cons. rewrite <- Hloop.
    now apply emoji_gen_loop_nonempty. }
  repeat split; try assumption.
  - rewrite <- Hloop. cbn [length]. apply emoji_gen_loop_length.
  - rewrite Hconcat, <- H. apply chars_concat.
  - apply Hnonempty. rewrite <- H. apply chars_nonempty.
Qed.

Lemma emoji_gen_partitions_witness :
  exists ext tokens,
    _emoji_gen (chars ("🏠🎓" ++ family)) = Ok (("🏠" ++ ext) :: tokens)
    /\ String.concat "" (("🏠" ++ ext) :: tokens) = "🏠🎓" ++ family.
Proof.
  destruct (emoji_gen_partitions "🏠" (List.tl (chars ("🏠🎓" ++ family))))
    as (_ & ext & tokens & Hrun & _ & _ & _ & _ & Hstring).
  exists ext, tokens. split; [exact Hrun|].
  apply (Hstring ("🏠🎓" ++ family)). reflexivity.
Defined.

Lemma emoji_gen_segment_witness :
  _emoji_gen (chars ("⚠" ++ vs16 ++ "🏠")) = Ok (segment (chars ("⚠" ++ vs16 ++ "🏠"))).
Proof.
  apply (emoji_gen_segment "⚠" [vs16; "🏠"]). reflexivity.
Defined.

(** ** Sorting the tokens *)








(** ** The side frames of the legends *)

Lemma length_replicate_app {A} (n : nat) (x y : A) : length (app (replicate n x) [y]) = S n.
Proof. rewrite length_app, length_replicate. cbn. lia. Qed.



Lemma grouped_column_length df by_ keys name col :
  grouped_column df by_ keys name = Ok col -> length col = length keys.
Proof.
  unfold grouped_column. destruct (py_eq by_ (VStr name)); [now intros [= <-]|].
  destruct (df !! name); [|discriminate].
  intros H'. inv_bind H' as keycol Hkeycol. injection H' as <-. now rewrite length_map.
Qed.

Lemma manual_legend_idx_length n : length (manual_legend_idx n) = S n.
Proof.
  unfold manual_legend_idx. rewrite length_app, length_map, length_seq. cbn. lia.
Qed.

(** X12: the manual legend, for any number of groups up to 33, is five
    layers over one side frame whose columns all have one row per group
    plus the title row.  The click selection is attached to the second
    layer (the invisible padded text) and the hover selection
    [legend_hover] to the third, and to no other layer; the diamonds
    and both text layers for the groups show the normal rows only, the
    last layer the title row only. *)
Theorem manual_legend_layers (on_missing : missing_attr) (c : ChartSpec) (df : DataFrame)
    (click : selection) (colorby : value) (names group_idx : list cell) :
  getattr on_missing c "colorby" = Ok colorby ->
  group_keys df colorby = Ok names ->
  (length names <= 33)%nat ->
  grouped_column df colorby names "group_idx" = Ok group_idx ->
  is_ok (_alt_color c) = true ->
  exists diamonds click_text hover labels title,
    _make_manual_legend on_missing c df click
      = Ok [diamonds; click_text; hover; labels; title]
    /\ Forall (fun ch => data ch = manual_legend_frame c names group_idx)
         [diamonds; click_text; hover; labels; title]
    /\ (forall name col, manual_legend_frame c names group_idx !! name = Some col ->
          length col = S (length names))
    /\ map selections [diamonds; click_text; hover; labels; title]
       = [[]; [click]; [legend_hover]; []; []]
    /\ map transforms [diamonds; labels; hover; title]
       = [[Filter (TExpr ("datum.row_type == " ++ dq ++ "normal" ++ dq))];
          [Filter (TExpr ("datum.row_type == " ++ dq ++ "normal" ++ dq))];
          [];
          [Filter (TExpr ("datum.row_type == " ++ dq ++ "title" ++ dq))]]
    /\ map (fun ch => fst <$> mark ch) [diamonds; click_text; hover; labels; title]
       = [Some "point"; Some "text"; Some "point"; Some "text"; Some "text"].
Proof.
  intros Hattr Hkeys Hlen Hidx Hcolor.
  unfold _make_manual_legend. rewrite Hattr. cbn [mbind result_bind]. rewrite Hkeys.
  cbn [mbind result_bind].
  replace (Z.of_nat (length names) >? Const.MAX_LEGEND_MARKS) with false.
  2:{ symmetry. rewrite Z.gtb_ltb. apply Z.ltb_ge. unfold Const.MAX_LEGEND_MARKS. lia. }
  rewrite Hidx. cbn [mbind result_bind].
  destruct (_alt_color c) as [color|]; [|discriminate]. cbn [mbind result_bind].
  eexists _, _, _, _, _. split; [reflexivity|].
  split; [repeat constructor|]. split; [|repeat split].
  intros name col. unfold manual_legend_frame. rewrite !lookup_insert.
  pose proof (grouped_column_length _ _ _ _ _ Hidx) as Hglen.
  repeat case_decide; try discriminate; intros [= <-];
    rewrite ?length_map, ?length_replicate, ?length_app, ?length_map,
      ?manual_legend_idx_length; unfold manual_legend_row_type;
    rewrite ?length_replicate_app; cbn [length]; lia.
Qed.

Lemma manual_legend_layers_witness :
  exists diamonds click_text hover labels title,
    _make_manual_legend ReturnsNone manual_example manual_three_groups (cursor_of manual_example)
      = Ok [diamonds; click_text; hover; labels; title]
    /\ map selections [diamonds; click_text; hover; labels; title]
       = [[]; [cursor_of manual_example]; [legend_hover]; []; []].
Proof.
  destruct (manual_legend_layers ReturnsNone manual_example manual_three_groups
              (cursor_of manual_example) (VStr "g") [CStr "a"; CStr "b"; CStr "c"]
              [CInt 0; CInt 1; CInt 2])
    as (l1 & l2 & l3 & l4 & l5 & Hrun & _ & _ & Hsel & _).
  - reflexivity.
  - vm_compute. reflexivity.
  - cbn. lia.
  - vm_compute. reflexivity.
  - reflexivity.
  - exists l1, l2, l3, l4, l5. auto.
Defined.

(** ** The outcome of validation *)

(** X16: when the two attribute reads of [validate] resolve, validation
    has two outcomes only: it returns when none of its seven conditions
    holds, and raises a [ValueError] when one does; no other exception
    leaves it.  A configuration that passes has a selection enabled, its
    data has the x and y columns, its color mapping is absent or a
    dictionary, and with a color mapping or legend selection its
    colors-by and details-by values are equal. *)
Theorem validate_outcome (on_missing : missing_attr) (c : ChartSpec) (df : DataFrame) :
  attrs_resolve on_missing c ->
  (rejected c df = false -> validate on_missing c df = Ok tt)
  /\ (rejected c df = true -> exists msg, validate on_missing c df = Raise (ValueError msg))
  /\ (validate on_missing c df = Ok tt ->
      has_column df "x" = true /\ has_column df "y" = true
      /\ truthy (get c "click_selection" (VBool false))
         || truthy (get c "legend_selection" (VBool false)) = true
      /\ (is_none (get c "colormap" VNone) || is_dict (get c "colormap" VNone) = true)
      /\ (negb (is_none (get c "colormap" VNone))
          || truthy (get c "legend_selection" (VBool false)) = true ->
          detail_is_color c = true)).
Proof.
  intros Hres. unfold validate, rejected.
  rewrite !(check_detail_is_color_spec _ _ _ Hres).
  destruct (contains c "lines"), (contains c "points"),
    (has_column df Const.X) eqn:Hx, (has_column df Const.Y) eqn:Hy;
    unfold Const.X, Const.Y in *; rewrite ?Hx, ?Hy; cbn;
    try (repeat split; intros; (discriminate || eauto); fail);
    destruct (truthy (get c "click_selection" (VBool false))),
      (truthy (get c "legend_selection" (VBool false))),
      (get c "colormap" VNone), (detail_is_color c); cbn;
    repeat split; intros; (discriminate || eauto).
Qed.

Lemma validate_outcome_witness :
  validate RaisesKeyError plain_example small_frame = Ok tt.
Proof.
  refine (proj1 (validate_outcome RaisesKeyError plain_example small_frame _) _).
  - right. split; reflexivity.
  - reflexivity.
Defined.

(** ** The trend line and its clip *)



(** ** Tooltip layers *)

Ltac not_tooltip_name H :=
  let Heq := fresh in
  intros Heq; apply H; rewrite <- Heq; unfold tooltip_names;
  repeat (apply list_elem_of_here || apply list_elem_of_further).

Lemma lockdown_icon_layers_preserve c df layers chart key :
  key ∉ tooltip_names ->
  dict_get (_collect_lockdown_icon_layers c df layers chart) key = dict_get layers key.
Proof.
  intros Hkey. unfold _collect_lockdown_icon_layers. cbv zeta.
  destruct (has_column df "Coverage");
    rewrite !dict_get_set_ne by (not_tooltip_name Hkey); reflexivity.
Qed.

Lemma lockdown_tooltip_layers_preserve c df layers chart cursor key :
  key ∉ tooltip_names ->
  dict_get (_collect_lockdown_tooltip_layers c df layers chart cursor) key
  = dict_get layers key.
Proof.
  intros Hkey. unfold _collect_lockdown_tooltip_layers. cbv zeta.
  destruct (truthy (get c "event_select" (VBool false)));
    rewrite !dict_get_set_ne by (not_tooltip_name Hkey); reflexivity.
Qed.

Lemma lockdown_tooltip_layers_hover c df layers chart cursor :
  dict_in "hover_layer" (_collect_lockdown_tooltip_layers c df layers chart cursor) = true.
Proof.
  apply dict_in_get. unfold _collect_lockdown_tooltip_layers. cbv zeta.
  destruct (truthy (get c "event_select" (VBool false))).
  - rewrite dict_get_set_ne by discriminate. rewrite dict_get_set_eq. eauto.
  - rewrite dict_get_set_eq. eauto.
Qed.

(** X14: collecting the tooltip layers never touches a layer that is
    already there under another name: every layer stored under a name
    outside the nine tooltip names is found unchanged afterwards.  With
    ['has_tooltips'] off nothing is added at all, whatever the other
    tooltip options say; with it on, the [hover_layer] of the
    intervention tooltips is present as soon as intervention rules, icons
    or tooltips are requested. *)
Theorem tooltip_layers_preserve (c : ChartSpec) (df : DataFrame) (layers : Layers)
    (chart : Chart) (cursor : selection) (layers' : Layers) :
  _collect_tooltip_layers c df layers chart cursor = Ok layers' ->
  (forall key, key ∉ tooltip_names -> dict_get layers' key = dict_get layers key)
  /\ (truthy (get c "has_tooltips" (VBool false)) = false -> layers' = layers)
  /\ (truthy (get c "has_tooltips" (VBool false)) = true ->
      truthy (get c "lockdown_rules" (VBool false))
      || truthy (get c "lockdown_icons" (VBool false))
      || truthy (get c "lockdown_tooltips" (VBool false)) = true ->
      dict_in "hover_layer" layers' = true).
Proof.
  unfold _collect_tooltip_layers. intros H'.
  destruct (truthy (get c "has_tooltips" (VBool false))); cbn [negb] in H'.
  2:{ injection H' as <-. repeat split; (reflexivity || discriminate). }
  inv_bind H' as l1 Hl1. inv_bind H' as l2 Hl2. inv_bind H' as l4 Hl4.
  assert (forall key, key ∉ tooltip_names -> dict_get l1 key = dict_get layers key) as H1.
  { intros key Hkey. destruct (truthy (get c "tooltip_points" (VBool false))).
    - inv_bind Hl1 as pts Hpts. injection Hl1 as <-.
      now rewrite dict_get_set_ne by (not_tooltip_name Hkey).
    - now injection Hl1 as <-. }
  assert (forall key, key ∉ tooltip_names -> dict_get l2 key = dict_get layers key) as H2.
  { intros key Hkey. rewrite <- (H1 key Hkey).
    destruct (truthy (get c "tooltip_text" (VBool false))).
    - inv_bind Hl2 as pts Hpts. injection Hl2 as <-.
      now rewrite dict_get_set_ne by (not_tooltip_name Hkey).
    - now injection Hl2 as <-. }
  assert (forall key, key ∉ tooltip_names -> dict_get l4 key = dict_get layers key) as H4.
  { intros key Hkey. rewrite <- (H2 key Hkey).
    destruct (truthy (get c "lockdown_rules" (VBool false))).
    - inv_bind Hl4 as rules Hrules. injection Hl4 as <-.
      rewrite dict_get_set_ne by (not_tooltip_name Hkey).
      destruct (truthy (get c "tooltip_rules" VNone));
        rewrite ?dict_get_set_ne by (not_tooltip_name Hkey); reflexivity.
    - injection Hl4 as <-.
      destruct (truthy (get c "tooltip_rules" VNone));
        rewrite ?dict_get_set_ne by (not_tooltip_name Hkey); reflexivity. }
  split; [|split; [discriminate|]].
  - intros key Hkey. rewrite <- (H4 key Hkey).
    destruct (_ || _); injection H' as <-;
      rewrite ?lockdown_tooltip_layers_preserve by exact Hkey;
      destruct (truthy (get c "lockdown_icons" (VBool false)));
      rewrite ?lockdown_icon_layers_preserve by exact Hkey; reflexivity.
  - intros _ Hany. rewrite Hany in H'. injection H' as <-.
    apply lockdown_tooltip_layers_hover.
Qed.

Lemma tooltip_layers_preserve_witness :
  exists layers',
    _collect_tooltip_layers tooltips_example small_frame some_layers
      (new_chart small_frame (VInt 400) (VInt 600)) (cursor_of tooltips_example) = Ok layers'
    /\ dict_get layers' "lines" = dict_get some_layers "lines"
    /\ dict_in "hover_layer" layers' = true.
Proof.
  destruct (_collect_tooltip_layers tooltips_example small_frame some_layers
              (new_chart small_frame (VInt 400) (VInt 600)) (cursor_of tooltips_example))
    as [layers'|e] eqn:Hrun; [|vm_compute in Hrun; discriminate].
  destruct (tooltip_layers_preserve _ _ _ _ _ _ Hrun) as (Hkeep & _ & Hhover).
  exists layers'. split; [reflexivity|]. split.
  - apply Hkeep. unfold tooltip_names. rewrite !not_elem_of_cons.
    repeat split; (discriminate || apply not_elem_of_nil).
  - apply Hhover; reflexivity.
Defined.

(** ** The click selection *)

(** X15: in native-legend mode the click selection is a single
    selection bound to a dropdown.  With click selection enabled the
    dropdown offers the empty selection first and then every details-by
    value of the data exactly once, in the order the values are first
    met; with click selection off it offers the empty selection alone.
    In manual-legend mode the selection is a multi-selection with no
    dropdown.  In both modes it is named [click], is made on the
    details-by field and is cleared by a double click. *)
Theorem click_selection_dropdown (c : ChartSpec) (df : DataFrame) (click : selection) :
  click_selection_of c df = Ok click ->
  sel_name click = "click"
  /\ sel_fields click = [py_str (_detailby c)]
  /\ sel_clear click = Some "dblclick"
  /\ (truthy (_manual_legend c) = true -> sel_type click = "multi" /\ sel_bind click = None)
  /\ (truthy (_manual_legend c) = false ->
      sel_type click = "single"
      /\ exists options label,
          sel_bind click = Some (BindSelect (CStr "" :: options) label)
          /\ NoDup options
          /\ (truthy (get c "click_selection" (VBool false)) = false -> options = [])
          /\ (truthy (get c "click_selection" (VBool false)) = true ->
              exists col, column df (_detailby c) = Ok col
                          /\ options = unique col
                          /\ forall g, g ∈ options <-> g ∈ col)).
Proof.
  unfold click_selection_of. intros H'.
  destruct (truthy (_manual_legend c)); cbn [negb] in H'.
  - cbn [mbind result_bind] in H'. injection H' as <-.
    do 3 (split; [reflexivity|]). split; [intros _; split; reflexivity | discriminate].
  - destruct (truthy (get c "click_selection" (VBool false))).
    + inv_bind H' as bind Hbind. inv_bind Hbind as col Hcol. injection Hbind as <-.
      injection H' as <-.
      do 3 (split; [reflexivity|]). split; [discriminate|].
      intros _. split; [reflexivity|]. eexists _, _. split; [reflexivity|].
      split; [apply unique_NoDup|]. split; [discriminate|].
      intros _. exists col. split; [exact Hcol|]. split; [reflexivity|].
      intros g. apply unique_elem.
    + cbn [mbind result_bind] in H'. injection H' as <-.
      do 3 (split; [reflexivity|]). split; [discriminate|].
      intros _. split; [reflexivity|]. exists [], " ". split; [reflexivity|].
      split; [constructor|]. split; [reflexivity | discriminate].
Qed.

Lemma click_selection_dropdown_witness :
  exists click,
    click_selection_of plain_example small_frame = Ok click
    /\ sel_name click = "click"
    /\ sel_clear click = Some "dblclick".
Proof.
  destruct (click_selection_of plain_example small_frame) as [click|e] eqn:Hclick;
    [|vm_compute in Hclick; discriminate].
  destruct (click_selection_dropdown plain_example small_frame click Hclick)
    as (Hname & _ & Hclear & _).
  exists click. auto.
Defined.
